(** * Ding-Chat: room directory, room view and chat panel

    A shallow embedding of the event handlers of three React components
    (the room directory [RoomList], [RoomView] and [Chat]) and the
    properties of the room-membership check, the directory ordering and
    search, the view toggles and the two message-sending paths.

    Conventions.
    - A JavaScript string is a sequence of code units; the model keeps the
      code units U+0000..U+00FF (the 8-bit [ascii] of the Standard Library).
    - A JavaScript number holding an integer (a count, [max_users], a
      timestamp in milliseconds) is a [Z].
    - An event handler is a computation over the component's state that
      emits the externally visible effects (notices, backend requests,
      navigation) in the order in which the handler issues them.  The
      answers of the backend are inputs of the handler; one run of a
      handler is followed from the event to its return, with no other
      event in between. *)

From Stdlib Require Import List String Ascii ZArith Bool Lia Permutation Sorted.
Import ListNotations.
Open Scope string_scope.
Open Scope list_scope.
Open Scope Z_scope.

(* ===================================================================== *)
(** ** The JavaScript built-ins the handlers call *)
(* ===================================================================== *)

Module JS.

(** WhiteSpace and LineTerminator code points of ECMAScript below U+0100:
    TAB, LF, VT, FF, CR, SP and NBSP. *)
Definition isWhiteSpace (c : ascii) : bool :=
  match nat_of_ascii c with
  | 9%nat | 10%nat | 11%nat | 12%nat | 13%nat | 32%nat | 160%nat => true
  | _ => false
  end.

Fixpoint trimStart (s : string) : string :=
  match s with
  | EmptyString => EmptyString
  | String c s' => if isWhiteSpace c then trimStart s' else s
  end.

Fixpoint trimEnd (s : string) : string :=
  match s with
  | EmptyString => EmptyString
  | String c s' =>
      match trimEnd s' with
      | EmptyString => if isWhiteSpace c then EmptyString else String c EmptyString
      | t => String c t
      end
  end.

(** [String.prototype.trim] *)
Definition trim (s : string) : string := trimEnd (trimStart s).

(** ToBoolean on a string: only the empty string is falsy. *)
Definition truthy (s : string) : bool :=
  match s with EmptyString => false | String _ _ => true end.

(** Every code unit of [s] is white space (this includes the empty string). *)
Fixpoint allWhiteSpace (s : string) : bool :=
  match s with
  | EmptyString => true
  | String c s' => isWhiteSpace c && allWhiteSpace s'
  end.

(** Lower-case mapping of one code unit below U+0100: A-Z and the
    Latin-1 capitals U+00C0..U+00DE (without the multiplication sign
    U+00D7) move up by 32. *)
Definition lowerChar (c : ascii) : ascii :=
  let n := nat_of_ascii c in
  if ((65 <=? n)%nat && (n <=? 90)%nat)
     || ((192 <=? n)%nat && (n <=? 222)%nat && negb (n =? 215)%nat)
  then ascii_of_nat (n + 32) else c.

(** [String.prototype.toLowerCase] *)
Fixpoint toLowerCase (s : string) : string :=
  match s with
  | EmptyString => EmptyString
  | String c s' => String (lowerChar c) (toLowerCase s')
  end.

(** [s.startsWith(q)] *)
Fixpoint startsWith (s q : string) {struct q} : bool :=
  match q, s with
  | EmptyString, _ => true
  | String _ _, EmptyString => false
  | String b q', String a s' => Ascii.eqb a b && startsWith s' q'
  end.

(** [s.includes(q)] *)
Fixpoint includes (s q : string) : bool :=
  startsWith s q ||
  match s with
  | EmptyString => false
  | String _ s' => includes s' q
  end.

(** [s.split(sep)] for a one-character separator: the result is never
    empty, so it is returned as its first piece and the remaining ones. *)
Fixpoint split (sep : ascii) (s : string) : string * list string :=
  match s with
  | EmptyString => (EmptyString, [])
  | String c s' =>
      let '(hd, tl) := split sep s' in
      if Ascii.eqb c sep then (EmptyString, hd :: tl) else (String c hd, tl)
  end.

(** [arr.pop()] on the result of [split]: its last piece. *)
Definition pop (pieces : string * list string) : string :=
  last (snd pieces) (fst pieces).

(** [Array.prototype.sort(comparefn)].  ECMAScript requires the sort to be
    stable and, for a consistent comparator, to place [a] before [b]
    whenever [comparefn a b < 0]; every conforming engine then returns the
    same array, which is the one the stable insertion sort below builds.
    [insertSorted x l] puts [x], which preceded all of [l] in the input,
    in front of the first element it does not compare greater than. *)
Section Sort.
Context {A : Type} (comparefn : A -> A -> Z).

Fixpoint insertSorted (x : A) (l : list A) : list A :=
  match l with
  | [] => [x]
  | y :: l' => if comparefn x y <=? 0 then x :: y :: l' else y :: insertSorted x l'
  end.

Definition sort (l : list A) : list A := fold_right insertSorted [] l.

(** [a] may stand before [b] in a sorted array. *)
Definition inOrder (a b : A) : Prop := comparefn a b <= 0.
End Sort.

(** A number that holds an integer or is NaN ([None]). *)
Definition number : Type := option Z.

(** [x - y] on such numbers: NaN as soon as one side is NaN. *)
Definition minus (x y : number) : number :=
  match x, y with
  | Some a, Some b => Some (a - b)
  | _, _ => None
  end.

(** What [sort] makes of the number its comparator returns: NaN counts as
    +0.  A comparator that returns NaN for some pairs need not be
    consistent; ECMAScript then leaves the order to the engine, and [sort]
    gives the order of an insertion sort. *)
Definition SortCompare (v : number) : Z :=
  match v with Some z => z | None => 0 end.

End JS.

(* ===================================================================== *)
(** ** Backend responses *)
(* ===================================================================== *)

Module Supabase.

(** A value the handlers throw and catch.  The [catch] blocks of the
    components test [error instanceof Error] before they read its message. *)
Record JsError : Type := mkError {
  message : string;
  instanceofError : bool
}.

(** The answer to an awaited query: either a success carrying [data]
    (possibly [null]) and [count] (possibly [null]) with a [null] error, or
    a failure carrying the error with [data] and [count] both [null]. *)
Inductive PostgrestResponse (T : Type) : Type :=
| Success (d : option T) (n : option Z)
| Failure (e : JsError).
Arguments Success {T} d n.
Arguments Failure {T} e.

(** The fields a handler destructures from a response. *)
Definition data {T} (r : PostgrestResponse T) : option T :=
  match r with Success d _ => d | Failure _ => None end.

Definition error {T} (r : PostgrestResponse T) : option JsError :=
  match r with Success _ _ => None | Failure e => Some e end.

Definition count {T} (r : PostgrestResponse T) : option Z :=
  match r with Success _ n => n | Failure _ => None end.

End Supabase.

(* ===================================================================== *)
(** ** Event handlers as computations *)
(* ===================================================================== *)

Module Handler.
Import Supabase.

(** How a block of statements ends: it runs to its end, it executes
    [return;], or it throws. *)
Inductive Completion (A : Type) : Type :=
| Normal (a : A)
| Return
| Throw (e : JsError).
Arguments Normal {A} a.
Arguments Return {A}.
Arguments Throw {A} e.

(** A handler over component state [S] emitting effects of type [E]. *)
Definition Handler (S E A : Type) : Type := S -> Completion A * S * list E.

Section Ops.
Context {S E : Type}.

Definition ret {A} (a : A) : Handler S E A := fun s => (Normal a, s, []).

Definition bind {A B} (m : Handler S E A) (k : A -> Handler S E B) : Handler S E B :=
  fun s =>
    match m s with
    | (Normal a, s1, t1) => let '(c, s2, t2) := k a s1 in (c, s2, t1 ++ t2)
    | (Return, s1, t1) => (Return, s1, t1)
    | (Throw e, s1, t1) => (Throw e, s1, t1)
    end.

(** An externally visible effect. *)
Definition emit (ev : E) : Handler S E unit := fun s => (Normal tt, s, [ev]).

(** A state setter of the component ([setX(v)]). *)
Definition set (f : S -> S) : Handler S E unit := fun s => (Normal tt, f s, []).

(** [return;] *)
Definition return_ {A} : Handler S E A := fun s => (Return, s, []).

(** [throw e;] *)
Definition throw {A} (e : JsError) : Handler S E A := fun s => (Throw e, s, []).

(** [if (b) { m }] *)
Definition when (b : bool) (m : Handler S E unit) : Handler S E unit :=
  if b then m else ret tt.

(** [try { body } catch (error) { handler }] *)
Definition tryCatch (body : Handler S E unit) (handler : JsError -> Handler S E unit)
  : Handler S E unit :=
  fun s =>
    match body s with
    | (Throw e, s1, t1) => let '(c, s2, t2) := handler e s1 in (c, s2, t1 ++ t2)
    | r => r
    end.

(** [try { body } finally { fin }]: [fin] runs however [body] ends, and
    the completion of [body] stands unless [fin] itself ends abruptly. *)
Definition tryFinally (body fin : Handler S E unit) : Handler S E unit :=
  fun s =>
    let '(c, s1, t1) := body s in
    match fin s1 with
    | (Normal _, s2, t2) => (c, s2, t1 ++ t2)
    | (c', s2, t2) => (c', s2, t1 ++ t2)
    end.

(** The state and the effects once the handler has returned. *)
Definition run {A} (m : Handler S E A) (s : S) : S * list E :=
  let '(_, s', t) := m s in (s', t).
End Ops.

Declare Scope handler_scope.
Delimit Scope handler_scope with handler.
Notation "x <- c1 ;; c2" := (bind c1 (fun x => c2))
  (at level 61, c1 at next level, right associativity) : handler_scope.
Notation "c1 ;; c2" := (bind c1 (fun _ => c2))
  (at level 61, right associativity) : handler_scope.

End Handler.

(* ===================================================================== *)
(** ** The room directory ([RoomList]) *)
(* ===================================================================== *)

Module RoomList.
Import JS Supabase Handler.
Local Open Scope handler_scope.

Record Room : Type := mkRoom {
  id : string;
  name : string;
  owner_email : string;
  created_at : string;
  password_hash : string;
  max_users : Z;
  owner_id : string
}.

(** A row of [room_users]. *)
Record RoomUser : Type := mkRoomUser {
  room_id : string;
  user_id : string
}.

(** The [useState] cells of the component. *)
Record State : Type := mkState {
  rooms : list Room;
  filteredRooms : list Room;
  showCreateModal : bool;
  showJoinModal : bool;
  showSettings : bool;
  selectedRoom : option Room;
  newRoomName : string;
  newRoomPassword : string;
  maxUsers : Z;
  joinPassword : string;
  searchQuery : string
}.

Definition setRooms (v : list Room) (s : State) : State :=
  mkState v (filteredRooms s) (showCreateModal s) (showJoinModal s) (showSettings s)
    (selectedRoom s) (newRoomName s) (newRoomPassword s) (maxUsers s) (joinPassword s)
    (searchQuery s).

Definition setFilteredRooms (v : list Room) (s : State) : State :=
  mkState (rooms s) v (showCreateModal s) (showJoinModal s) (showSettings s)
    (selectedRoom s) (newRoomName s) (newRoomPassword s) (maxUsers s) (joinPassword s)
    (searchQuery s).

Definition setShowJoinModal (v : bool) (s : State) : State :=
  mkState (rooms s) (filteredRooms s) (showCreateModal s) v (showSettings s)
    (selectedRoom s) (newRoomName s) (newRoomPassword s) (maxUsers s) (joinPassword s)
    (searchQuery s).

Definition setJoinPassword (v : string) (s : State) : State :=
  mkState (rooms s) (filteredRooms s) (showCreateModal s) (showJoinModal s) (showSettings s)
    (selectedRoom s) (newRoomName s) (newRoomPassword s) (maxUsers s) v
    (searchQuery s).

(** What the handlers of the directory do to the outside world. *)
Inductive Effect : Type :=
| PreventDefault
| ToastError (msg : string)
| ToastSuccess (msg : string)
| SelectRooms
| SelectMembership (room user : string)
| CountMemberships (room : string)
| InsertMembership (room user : string)
| OnRoomSelect (roomId : string).

(** The answers of the backend to the queries of the directory. *)
Record Backend : Type := mkBackend {
  rooms_select : PostgrestResponse (list Room);
  room_users_maybeSingle : string -> string -> PostgrestResponse RoomUser;
  room_users_count : string -> PostgrestResponse (list RoomUser);
  room_users_insert : string -> string -> PostgrestResponse unit
}.

(** [await] of a backend request: the request goes out, its answer comes back. *)
Definition await {R} (request : Effect) (answer : R) : Handler State Effect R :=
  emit request ;; ret answer.

(** [if (err) throw err;] *)
Definition throwIf (err : option JsError) : Handler State Effect unit :=
  match err with Some e => throw e | None => ret tt end.

Section Directory.
(** [new Date(s).getTime()]: the instant in milliseconds, or NaN when [s]
    does not parse as a date. *)
Variable Date_getTime : string -> number.
(** [session.user.id] *)
Variable session_user_id : string.

(** The comparator passed to [sort] in [fetchRooms] and in the search effect. *)
Definition compareRooms (a b : Room) : number :=
  if Bool.eqb (owner_id a =? session_user_id)%string (owner_id b =? session_user_id)%string
  then minus (Date_getTime (created_at b)) (Date_getTime (created_at a))
  else if (owner_id a =? session_user_id)%string then Some (-1) else Some 1.

Definition sortRooms (l : list Room) : list Room :=
  sort (fun a b => SortCompare (compareRooms a b)) l.

(** The list the search effect passes to [setFilteredRooms]. *)
Definition searchResult (searchQuery : string) (rooms : list Room) : list Room :=
  if (trim searchQuery =? "")%string then
    sortRooms rooms
  else
    let query := toLowerCase searchQuery in
    sortRooms
      (filter (fun room => includes (toLowerCase (id room)) query
                           || includes (toLowerCase (name room)) query)
              rooms).

(** The effect that runs when [searchQuery], [rooms] or the user changes. *)
Definition searchEffect (s : State) : State :=
  setFilteredRooms (searchResult (searchQuery s) (rooms s)) s.

Definition fetchRooms (B : Backend) : Handler State Effect unit :=
  r <- await SelectRooms (rooms_select B) ;;
  when (match error r with Some _ => true | None => false end)
       (emit (ToastError "Failed to fetch rooms") ;; return_) ;;
  let sortedRooms := sortRooms (match data r with Some d => d | None => [] end) in
  set (setRooms sortedRooms) ;;
  set (setFilteredRooms sortedRooms).

(** [joinRoom], the submit handler of the join form; [s] holds the state
    cells the handler closes over. *)
Definition joinRoom (B : Backend) (s : State) : Handler State Effect unit :=
  emit PreventDefault ;;
  match selectedRoom s with
  | None => return_
  | Some selectedRoom =>
    when (negb (truthy (trim (joinPassword s))))
         (emit (ToastError "Room password is required") ;; return_) ;;
    tryCatch
      (when (negb (joinPassword s =? password_hash selectedRoom)%string)
            (emit (ToastError "Incorrect password") ;; return_) ;;
       membership <- await (SelectMembership (id selectedRoom) session_user_id)
                           (room_users_maybeSingle B (id selectedRoom) session_user_id) ;;
       throwIf (error membership) ;;
       when (match data membership with Some _ => true | None => false end)
            (set (setShowJoinModal false) ;;
             set (setJoinPassword "") ;;
             emit (OnRoomSelect (id selectedRoom)) ;;
             return_) ;;
       counted <- await (CountMemberships (id selectedRoom))
                        (room_users_count B (id selectedRoom)) ;;
       throwIf (error counted) ;;
       when (match count counted with
             | Some n => n >=? max_users selectedRoom
             | None => false
             end)
            (emit (ToastError "Room is full. Please try another room.") ;;
             set (setShowJoinModal false) ;;
             set (setJoinPassword "") ;;
             return_) ;;
       joined <- await (InsertMembership (id selectedRoom) session_user_id)
                       (room_users_insert B (id selectedRoom) session_user_id) ;;
       throwIf (error joined) ;;
       set (setShowJoinModal false) ;;
       set (setJoinPassword "") ;;
       emit (OnRoomSelect (id selectedRoom)) ;;
       emit (ToastSuccess "Successfully joined the room!"))
      (fun error => when (instanceofError error) (emit (ToastError (message error))))
  end.
End Directory.

(** The join form is submitted while the component is in state [s]: the
    state and the effects once [joinRoom] has returned. *)
Definition joinAttempt (session_user_id : string) (B : Backend) (s : State)
  : State * list Effect :=
  run (joinRoom session_user_id B s) s.

(** The room belongs to the user. *)
Definition ownedBy (session_user_id : string) (r : Room) : bool :=
  (owner_id r =? session_user_id)%string.

(** The creation timestamp of the room parses as a date. *)
Definition parses (Date_getTime : string -> number) (r : Room) : Prop :=
  Date_getTime (created_at r) <> None.

(** The instant at which the room was created, 0 standing in for a
    timestamp that does not parse. *)
Definition instant (Date_getTime : string -> number) (r : Room) : Z :=
  SortCompare (Date_getTime (created_at r)).

(** The comparator of the directory on instants. *)
Definition compareInstants (Date_getTime : string -> number) (session_user_id : string)
  (a b : Room) : Z :=
  if Bool.eqb (ownedBy session_user_id a) (ownedBy session_user_id b)
  then instant Date_getTime b - instant Date_getTime a
  else if ownedBy session_user_id a then -1 else 1.

(** [a] was created at a known instant and [b] at a known instant that is
    not later. *)
Definition notOlder (Date_getTime : string -> number) (a b : Room) : Prop :=
  exists ta tb,
    Date_getTime (created_at a) = Some ta /\
    Date_getTime (created_at b) = Some tb /\
    tb <= ta.

(** The order of the directory: of two positions, the later one holds a
    room of the user only if the earlier one does, and when both rooms are
    on the same side the earlier one is not older. *)
Definition inDirectoryOrder (Date_getTime : string -> number) (session_user_id : string)
  (l : list Room) : Prop :=
  forall i j a b,
    (i < j)%nat -> nth_error l i = Some a -> nth_error l j = Some b ->
    (ownedBy session_user_id b = true -> ownedBy session_user_id a = true) /\
    (ownedBy session_user_id a = ownedBy session_user_id b -> notOlder Date_getTime a b).

(** [q] occurs in [s] when letter case is ignored. *)
Definition containsIgnoringCase (s q : string) : Prop :=
  exists pre post, toLowerCase s = (pre ++ toLowerCase q ++ post)%string.

(** Observations on the effects of a handler. *)
Definition isInsert (ev : Effect) : bool :=
  match ev with InsertMembership _ _ => true | _ => false end.

Definition isNavigation (ev : Effect) : bool :=
  match ev with OnRoomSelect _ => true | _ => false end.

Definition insertsMembership (t : list Effect) : bool := existsb isInsert t.
Definition navigates (t : list Effect) : bool := existsb isNavigation t.

Definition roomFullNotice : Effect := ToastError "Room is full. Please try another room.".
Definition incorrectPasswordNotice : Effect := ToastError "Incorrect password".

End RoomList.

(* ===================================================================== *)
(** ** The room view ([RoomView]) *)
(* ===================================================================== *)

Module RoomView.

Record RoomUser : Type := mkRoomUser {
  user_id : string;
  user_email : string;
  avatar_url : option string;
  first_name : option string;
  last_name : option string
}.

Record State : Type := mkState {
  showChat : bool;
  showMembers : bool;
  showLeaderboard : bool;
  roomUsers : list RoomUser;
  isOwner : bool
}.

(** The state of a freshly mounted room view. *)
Definition initial : State := mkState false false false [] false.

Definition setShowChat (v : bool) (s : State) : State :=
  mkState v (showMembers s) (showLeaderboard s) (roomUsers s) (isOwner s).

Definition setShowMembers (v : bool) (s : State) : State :=
  mkState (showChat s) v (showLeaderboard s) (roomUsers s) (isOwner s).

Definition setShowLeaderboard (v : bool) (s : State) : State :=
  mkState (showChat s) (showMembers s) v (roomUsers s) (isOwner s).

(** The three buttons of the tool bar. *)
Inductive Button : Type := MembersButton | LeaderboardButton | ChatButton.

(** The [onClick] handlers; each reads the flags of the rendering it was
    created in, which is [s]. *)
Definition onClick (b : Button) (s : State) : State :=
  match b with
  | MembersButton => setShowMembers (negb (showMembers s)) s
  | LeaderboardButton => setShowChat false (setShowLeaderboard (negb (showLeaderboard s)) s)
  | ChatButton => setShowLeaderboard false (setShowChat (negb (showChat s)) s)
  end.

(** The state after a sequence of clicks, the component re-rendering
    between two clicks. *)
Definition clicks (bs : list Button) (s : State) : State :=
  fold_left (fun st b => onClick b st) bs s.

(** The four things the component can show. *)
Inductive View : Type := MembersPanel | LeaderboardView | TimerGrid | ChatPanel.

(** What a rendering shows, in the order of the JSX: the members panel is
    mounted when [showMembers], the leaderboard when [showLeaderboard], the
    timer grid is hidden when [showChat || showLeaderboard], and the chat is
    mounted when [showChat]. *)
Definition shown (s : State) : list View :=
  (if showMembers s then [MembersPanel] else [])
  ++ (if showLeaderboard s then [LeaderboardView] else [])
  ++ (if showChat s || showLeaderboard s then [] else [TimerGrid])
  ++ (if showChat s then [ChatPanel] else []).

Definition isMembersPanel (v : View) : bool :=
  match v with MembersPanel => true | _ => false end.

(** The views of a rendering other than the members panel. *)
Definition shownBesidesMembers (s : State) : list View :=
  filter (fun v => negb (isMembersPanel v)) (shown s).

End RoomView.

(* ===================================================================== *)
(** ** The chat panel ([Chat]) *)
(* ===================================================================== *)

Module Chat.
Import JS Supabase Handler.
Local Open Scope handler_scope.

Inductive MessageType : Type := text | image.

Record Message : Type := mkMessage {
  id : string;
  created_at : string;
  content : string;
  user_id : string;
  user_email : string;
  image_url : option string;
  message_type : MessageType;
  room_id : string;
  avatar_url : option string
}.

(** The object literal a handler passes to [insert] on [messages]. *)
Record NewMessage : Type := mkNewMessage {
  new_content : string;
  new_user_id : string;
  new_user_email : option string;
  new_image_url : option string;
  new_message_type : MessageType;
  new_room_id : string
}.

(** The two fields of a [File] the upload handler reads. *)
Record File : Type := mkFile {
  file_name : string;
  file_type : string
}.

(** [session.user] *)
Record User : Type := mkUser {
  session_user_id : string;
  session_user_email : option string
}.

Record State : Type := mkState {
  messages : list Message;
  newMessage : string;
  showEmojiPicker : bool;
  isUploading : bool;
  isDragging : bool
}.

Definition setNewMessage (v : string) (s : State) : State :=
  mkState (messages s) v (showEmojiPicker s) (isUploading s) (isDragging s).

Definition setIsUploading (v : bool) (s : State) : State :=
  mkState (messages s) (newMessage s) (showEmojiPicker s) v (isDragging s).

Inductive Effect : Type :=
| PreventDefault
| ToastError (msg : string)
| InsertMessage (row : NewMessage)
| StorageUpload (path : string) (file : File)
| GetPublicUrl (path : string)
| ClearFileInput.

(** What the handlers of the chat get from outside: the answers of the
    backend and of the object store, the rendering of the number that
    [Math.random()] draws, and whether the file input is mounted. *)
Record Backend : Type := mkBackend {
  messages_insert : NewMessage -> PostgrestResponse unit;
  storage_upload : string -> File -> option JsError;
  storage_getPublicUrl : string -> string;
  Math_random : string;
  fileInputRef_current : bool
}.

Definition await {R} (request : Effect) (answer : R) : Handler State Effect R :=
  emit request ;; ret answer.

Definition throwIf (err : option JsError) : Handler State Effect unit :=
  match err with Some e => throw e | None => ret tt end.

Section Panel.
Variable session_user : User.
Variable roomId : string.

Definition handleSend (B : Backend) (s : State) : Handler State Effect unit :=
  emit PreventDefault ;;
  when (negb (truthy (trim (newMessage s)))) return_ ;;
  tryCatch
    (let row := mkNewMessage (newMessage s) (session_user_id session_user)
                  (session_user_email session_user) None text roomId in
     sent <- await (InsertMessage row) (messages_insert B row) ;;
     throwIf (error sent) ;;
     set (setNewMessage ""))
    (fun error => when (instanceofError error) (emit (ToastError (message error)))).

Definition handleImageUpload (B : Backend) (file : File) : Handler State Effect unit :=
  when (negb (startsWith (file_type file) "image/"))
       (emit (ToastError "Please upload an image file") ;; return_) ;;
  set (setIsUploading true) ;;
  tryFinally
    (tryCatch
       (let fileExt := pop (split "."%char (file_name file)) in
        let fileName := (Math_random B ++ "." ++ fileExt)%string in
        let filePath := (session_user_id session_user ++ "/" ++ fileName)%string in
        uploadError <- await (StorageUpload filePath file) (storage_upload B filePath file) ;;
        throwIf uploadError ;;
        publicUrl <- await (GetPublicUrl filePath) (storage_getPublicUrl B filePath) ;;
        let row := mkNewMessage "Sent an image" (session_user_id session_user)
                     (session_user_email session_user) (Some publicUrl) image roomId in
        sent <- await (InsertMessage row) (messages_insert B row) ;;
        throwIf (error sent) ;;
        when (fileInputRef_current B) (emit ClearFileInput))
       (fun error => when (instanceofError error) (emit (ToastError (message error)))))
    (set (setIsUploading false)).
End Panel.

(** The send form is submitted while the chat is in state [s]. *)
Definition sendAttempt (user : User) (roomId : string) (B : Backend) (s : State)
  : State * list Effect :=
  run (handleSend user roomId B s) s.

(** [file] is picked or dropped while the chat is in state [s]. *)
Definition uploadAttempt (user : User) (roomId : string) (B : Backend) (file : File)
  (s : State) : State * list Effect :=
  run (handleImageUpload user roomId B file) s.

(** The path under which [handleImageUpload] stores [file]. *)
Definition uploadPath (user : User) (B : Backend) (file : File) : string :=
  (session_user_id user ++ "/" ++ (Math_random B ++ "." ++ pop (split "."%char (file_name file))))%string.

Definition isInsert (ev : Effect) : bool :=
  match ev with InsertMessage _ => true | _ => false end.

Definition insertsMessage (t : list Effect) : bool := existsb isInsert t.

End Chat.

(* ===================================================================== *)
(** ** Concrete situations *)
(* ===================================================================== *)

(** The rooms, states and backends at which the statements below are
    evaluated. *)
Module Scenario.
Import Supabase.

(** The room of the capacity example: two places, password [abc123]. *)
Definition r1 : RoomList.Room :=
  RoomList.mkRoom "r1" "Study" "owner@example.com" "2024-01-01T10:00:00Z" "abc123" 2 "owner".

(** A room whose stored password is a single space. *)
Definition blankRoom : RoomList.Room :=
  RoomList.mkRoom "r2" "Quiet" "owner@example.com" "2024-01-02T10:00:00Z" " " 2 "owner".

(** The join modal is open on [room] and [password] has been typed. *)
Definition joining (room : RoomList.Room) (password : string) : RoomList.State :=
  RoomList.mkState [room] [room] false true false (Some room) "" "" 10 password "".

(** The user is not a member and the room holds [n] members. *)
Definition countBackend (n : option Z) : RoomList.Backend :=
  RoomList.mkBackend (Success (Some []) None)
    (fun _ _ => Success None None)
    (fun _ => Success (Some []) n)
    (fun _ _ => Success None None).

(** The user is a member already. *)
Definition memberBackend : RoomList.Backend :=
  RoomList.mkBackend (Success (Some []) None)
    (fun room user => Success (Some (RoomList.mkRoomUser room user)) None)
    (fun _ => Success (Some []) (Some 2))
    (fun _ _ => Success None None).

(** Every creation timestamp reads as the same instant. *)
Definition sameInstant (created_at : string) : JS.number := Some 0.

Definition u1 : Chat.User := Chat.mkUser "u1" (Some "u1@example.com").

Definition photo : Chat.File := Chat.mkFile "holiday.png" "image/png".

(** The object store refuses every upload; inserts would succeed. *)
Definition failingStore : Chat.Backend :=
  Chat.mkBackend (fun _ => Success None None)
    (fun _ _ => Some (mkError "upload failed" true))
    (fun path => ("https://cdn.example/" ++ path)%string)
    "0.42" true.

(** The chat with [input] typed into the message box. *)
Definition typing (input : string) : Chat.State :=
  Chat.mkState [] input false false false.

End Scenario.

(* ===================================================================== *)
(** ** The room directory: creating a room and the modal buttons *)
(* ===================================================================== *)

Module RoomListForms.
Import JS Supabase Handler RoomList.
Local Open Scope handler_scope.

Definition setShowCreateModal (v : bool) (s : State) : State :=
  mkState (rooms s) (filteredRooms s) v (showJoinModal s) (showSettings s)
    (selectedRoom s) (newRoomName s) (newRoomPassword s) (maxUsers s) (joinPassword s)
    (searchQuery s).

Definition setShowSettings (v : bool) (s : State) : State :=
  mkState (rooms s) (filteredRooms s) (showCreateModal s) (showJoinModal s) v
    (selectedRoom s) (newRoomName s) (newRoomPassword s) (maxUsers s) (joinPassword s)
    (searchQuery s).

Definition setSelectedRoom (v : option Room) (s : State) : State :=
  mkState (rooms s) (filteredRooms s) (showCreateModal s) (showJoinModal s) (showSettings s)
    v (newRoomName s) (newRoomPassword s) (maxUsers s) (joinPassword s)
    (searchQuery s).

Definition setNewRoomName (v : string) (s : State) : State :=
  mkState (rooms s) (filteredRooms s) (showCreateModal s) (showJoinModal s) (showSettings s)
    (selectedRoom s) v (newRoomPassword s) (maxUsers s) (joinPassword s)
    (searchQuery s).

Definition setNewRoomPassword (v : string) (s : State) : State :=
  mkState (rooms s) (filteredRooms s) (showCreateModal s) (showJoinModal s) (showSettings s)
    (selectedRoom s) (newRoomName s) v (maxUsers s) (joinPassword s)
    (searchQuery s).

Definition setMaxUsers (v : Z) (s : State) : State :=
  mkState (rooms s) (filteredRooms s) (showCreateModal s) (showJoinModal s) (showSettings s)
    (selectedRoom s) (newRoomName s) (newRoomPassword s) v (joinPassword s)
    (searchQuery s).

(** [user] of [supabase.auth.getUser()]. *)
Record AuthUser : Type := mkAuthUser {
  auth_id : string;
  auth_email : option string
}.

(** The object literal [createRoom] passes to [insert] on [rooms]. *)
Record NewRoom : Type := mkNewRoom {
  new_name : string;
  new_password_hash : string;
  new_max_users : Z;
  new_owner_id : string;
  new_owner_email : option string
}.

Inductive Effect : Type :=
| PreventDefault
| ToastError (msg : string)
| ToastSuccess (msg : string)
| AuthGetUser
| InsertRoom (row : NewRoom)
| OnRoomSelect (roomId : string).

(** The answers [createRoom] awaits: the signed-in user or [null], and for
    [insert(...).select().single()] either the error or the created row. *)
Record Backend : Type := mkBackend {
  auth_getUser : option AuthUser;
  rooms_insert : NewRoom -> JsError + Room
}.

Definition await {R} (request : Effect) (answer : R) : Handler State Effect R :=
  emit request ;; ret answer.

(** [createRoom], the submit handler of the create form. *)
Definition createRoom (B : Backend) (s : State) : Handler State Effect unit :=
  emit PreventDefault ;;
  when (negb (truthy (trim (newRoomPassword s))))
       (emit (ToastError "Room password is required") ;; return_) ;;
  tryCatch
    (user <- await AuthGetUser (auth_getUser B) ;;
     match user with
     | None => throw (mkError "User not found" true)
     | Some user =>
       let row := mkNewRoom (newRoomName s) (newRoomPassword s) (maxUsers s)
                    (auth_id user) (auth_email user) in
       created <- await (InsertRoom row) (rooms_insert B row) ;;
       match created with
       | inl error => throw error
       | inr data =>
         set (setShowCreateModal false) ;;
         set (setNewRoomName "") ;;
         set (setNewRoomPassword "") ;;
         set (setMaxUsers 10) ;;
         emit (OnRoomSelect (id data)) ;;
         emit (ToastSuccess "Room created successfully!")
       end
     end)
    (fun error => when (instanceofError error) (emit (ToastError (message error)))).

(** The create form is submitted while the component is in state [s]. *)
Definition createAttempt (B : Backend) (s : State) : State * list Effect :=
  run (createRoom B s) s.

Definition isInsertRoom (ev : Effect) : bool :=
  match ev with InsertRoom _ => true | _ => false end.

Definition isBackendCall (ev : Effect) : bool :=
  match ev with AuthGetUser | InsertRoom _ => true | _ => false end.

Definition isNavigation (ev : Effect) : bool :=
  match ev with OnRoomSelect _ => true | _ => false end.

(** The [onClick] of the Join Room button of a room card. *)
Definition openJoinModal (room : Room) (s : State) : State :=
  setShowJoinModal true (setSelectedRoom (Some room) s).

(** The [onClick] of the Cancel button of the join modal. *)
Definition cancelJoin (s : State) : State :=
  setJoinPassword "" (setSelectedRoom None (setShowJoinModal false s)).

(** The [onClick] of the settings button of a room card. *)
Definition openSettings (room : Room) (s : State) : State :=
  setShowSettings true (setSelectedRoom (Some room) s).

(** [onClose] and [onRoomDeleted] of the settings modal. *)
Definition closeSettings (s : State) : State :=
  setSelectedRoom None (setShowSettings false s).

(** What the [catch] block of [joinRoom] shows for a caught error. *)
Definition joinCaught (e : JsError) : list RoomList.Effect :=
  if instanceofError e then [RoomList.ToastError (message e)] else [].

(** The state in which [joinRoom] leaves the component when it closes the
    join modal. *)
Definition joinClosed (s : State) : State :=
  setJoinPassword "" (setShowJoinModal false s).

(** What the [catch] block of [createRoom] shows for a caught error. *)
Definition createCaught (e : JsError) : list Effect :=
  if instanceofError e then [ToastError (message e)] else [].

(** The state in which [createRoom] leaves the component after it has
    created a room. *)
Definition createReset (s : State) : State :=
  setMaxUsers 10 (setNewRoomPassword "" (setNewRoomName "" (setShowCreateModal false s))).

(** The join modal is rendered: [showJoinModal && selectedRoom]. *)
Definition joinModalShown (s : State) : bool :=
  showJoinModal s && match selectedRoom s with Some _ => true | None => false end.

End RoomListForms.

(* ===================================================================== *)
(** ** Values that may be missing *)
(* ===================================================================== *)

Module Nullable.
Import JS.

(** [v || null] on a string that may be [null] or [undefined]: the empty
    string is falsy as well. *)
Definition orNull (v : option string) : option string :=
  match v with
  | Some s => if truthy s then Some s else None
  | None => None
  end.

(** [v || fallback] *)
Definition orElse (v : option string) (fallback : string) : string :=
  match orNull v with Some s => s | None => fallback end.

(** [[...new Set(values)]]: the distinct values in the order of their
    first occurrence. *)
Definition unique (values : list string) : list string :=
  fold_left (fun seen v => if existsb (String.eqb v) seen then seen else seen ++ [v])
            values [].

End Nullable.

(* ===================================================================== *)
(** ** The room view: the member list *)
(* ===================================================================== *)

Module RoomViewMembers.
Import JS Supabase Handler Nullable RoomView.
Local Open Scope handler_scope.

Definition setRoomUsers (v : list RoomUser) (s : State) : State :=
  mkState (showChat s) (showMembers s) (showLeaderboard s) v (isOwner s).

Definition setIsOwner (v : bool) (s : State) : State :=
  mkState (showChat s) (showMembers s) (showLeaderboard s) (roomUsers s) v.

(** [onClose] of the members panel. *)
Definition closeMembers (s : State) : State := setShowMembers false s.

(** A row of [room_users] as selected by the room view. *)
Record MemberRow : Type := mkMemberRow { row_user_id : string }.

(** A row answered by the [get_user_emails] procedure. *)
Record UserEmail : Type := mkUserEmail {
  ue_id : string;
  ue_email : option string
}.

Record Profile : Type := mkProfile {
  profile_id : string;
  profile_avatar_url : option string
}.

Record FullName : Type := mkFullName {
  fullname_id : string;
  fullname_first_name : option string;
  fullname_last_name : option string
}.

(** The notices of [handleKickUser] with a fixed text are effects of their
    own; [ToastError] carries the message of a caught error. *)
Inductive Effect : Type :=
| SelectOwner (room : string)
| SelectMembers (room : string)
| GetUserEmails (user_ids : list string)
| SelectProfiles (user_ids : list string)
| SelectFullNames (user_ids : list string)
| DeleteMembership (room user : string)
| ConsoleErrorRoomUsers
| ConsoleErrorUserData
| ConsoleErrorKick
| ConsoleLogRemoved (user : string)
| ToastKickFailed
| ToastKicked
| ToastError (msg : string).

Record Backend : Type := mkBackend {
  rooms_owner : string -> option string;
  room_users_select : string -> PostgrestResponse (list MemberRow);
  get_user_emails : list string -> PostgrestResponse (list UserEmail);
  profiles_select : list string -> option (list Profile);
  users_fullname_select : list string -> option (list FullName);
  room_users_delete : string -> string -> option JsError
}.

Definition await {R} (request : Effect) (answer : R) : Handler State Effect R :=
  emit request ;; ret answer.

(** [rows?.find(pred)] *)
Definition findIn {T} (pred : T -> bool) (rows : option (list T)) : option T :=
  match rows with Some l => find pred l | None => None end.

(** [row?.field] *)
Definition field {T} (f : T -> option string) (row : option T) : option string :=
  match row with Some r => f r | None => None end.

(** [user_id === roomData?.owner_id] *)
Definition isOwnerId (roomData : option string) (user_id : string) : bool :=
  match roomData with Some owner_id => (user_id =? owner_id)%string | None => false end.

(** The record built for one membership row. *)
Definition memberRecord (userData : option (list UserEmail))
  (profilesData : option (list Profile)) (namesData : option (list FullName))
  (roomUser : MemberRow) : RoomUser :=
  let user := findIn (fun u => (ue_id u =? row_user_id roomUser)%string) userData in
  let profile :=
    findIn (fun p => (profile_id p =? row_user_id roomUser)%string) profilesData in
  let nameInfo :=
    findIn (fun n => (fullname_id n =? row_user_id roomUser)%string) namesData in
  mkRoomUser (row_user_id roomUser)
    (orElse (field ue_email user) "Unknown User")
    (orNull (field profile_avatar_url profile))
    (orNull (field fullname_first_name nameInfo))
    (orNull (field fullname_last_name nameInfo)).

(** The comparator that puts the owner first. *)
Definition compareMembers (roomData : option string) (a b : RoomUser) : Z :=
  if isOwnerId roomData (user_id a) then -1
  else if isOwnerId roomData (user_id b) then 1
  else 0.

Section Members.
Variable session_user_id : string.
Variable roomId : string.

Definition fetchRoomDetails (B : Backend) : Handler State Effect unit :=
  roomData <- await (SelectOwner roomId) (rooms_owner B roomId) ;;
  match roomData with
  | Some owner_id => set (setIsOwner (owner_id =? session_user_id)%string)
  | None => ret tt
  end ;;
  fetched <- await (SelectMembers roomId) (room_users_select B roomId) ;;
  when (match error fetched with Some _ => true | None => false end)
       (emit ConsoleErrorRoomUsers ;; return_) ;;
  match data fetched with
  | None | Some [] => set (setRoomUsers []) ;; return_
  | Some roomUsersData =>
    let ids := map row_user_id roomUsersData in
    emails <- await (GetUserEmails ids) (get_user_emails B ids) ;;
    when (match error emails with Some _ => true | None => false end)
         (emit ConsoleErrorUserData ;; return_) ;;
    profilesData <- await (SelectProfiles ids) (profiles_select B ids) ;;
    namesData <- await (SelectFullNames ids) (users_fullname_select B ids) ;;
    let users :=
      sort (compareMembers roomData)
           (map (memberRecord (data emails) profilesData namesData) roomUsersData) in
    set (setRoomUsers users)
  end.

(** The callback of the DELETE notifications of [room_users]; [old_user_id]
    is [payload.old.user_id] when [payload.old] has that field. *)
Definition onMemberDeleted (old_user_id : option string) : Handler State Effect unit :=
  match old_user_id with
  | Some deletedUserId =>
    emit (ConsoleLogRemoved deletedUserId) ;;
    set (fun current =>
           setRoomUsers
             (filter (fun user => negb (user_id user =? deletedUserId)%string)
                     (roomUsers current))
             current)
  | None => ret tt
  end.

(** [handleKickUser]; [s] holds the flags the handler closes over. *)
Definition handleKickUser (B : Backend) (s : State) (userId : string)
  : Handler State Effect unit :=
  when (negb (isOwner s)) return_ ;;
  tryCatch
    (kickError <- await (DeleteMembership roomId userId)
                        (room_users_delete B roomId userId) ;;
     when (match kickError with Some _ => true | None => false end)
          (emit ConsoleErrorKick ;; emit ToastKickFailed ;; return_) ;;
     set (fun current =>
            setRoomUsers
              (filter (fun user => negb (user_id user =? userId)%string)
                      (roomUsers current))
              current) ;;
     emit ToastKicked)
    (fun error => when (instanceofError error) (emit (ToastError (message error)))).
End Members.

(** The owner asks to remove [userId] while the view is in state [s]. *)
Definition kickAttempt (roomId : string) (B : Backend) (s : State) (userId : string)
  : State * list Effect :=
  run (handleKickUser roomId B s userId) s.

(** The members other than [userId], in their order. *)
Definition without (userId : string) (users : list RoomUser) : list RoomUser :=
  filter (fun user => negb (user_id user =? userId)%string) users.

Definition isDelete (ev : Effect) : bool :=
  match ev with DeleteMembership _ _ => true | _ => false end.

(** The names of all that can happen to a mounted room view: a click on a
    button of the tool bar, the closing of the members panel, a
    notification that a member was deleted, and a fetch of the details. *)
Inductive Happening : Type :=
| Click (b : Button)
| CloseMembers
| Deleted (old_user_id : option string)
| Fetched (B : Backend).

Definition happen (session_user_id roomId : string) (h : Happening) (s : State) : State :=
  match h with
  | Click b => onClick b s
  | CloseMembers => closeMembers s
  | Deleted old => fst (run (onMemberDeleted old) s)
  | Fetched B => fst (run (fetchRoomDetails session_user_id roomId B) s)
  end.

Definition happenings (session_user_id roomId : string) (hs : list Happening) (s : State)
  : State :=
  fold_left (fun st h => happen session_user_id roomId h st) hs s.

End RoomViewMembers.

(* ===================================================================== *)
(** ** The chat panel: the message feed and the drop zone *)
(* ===================================================================== *)

Module ChatFeed.
Import JS Supabase Handler Nullable Chat.
Local Open Scope handler_scope.

Definition setMessages (v : list Message) (s : State) : State :=
  mkState v (newMessage s) (showEmojiPicker s) (isUploading s) (isDragging s).

Definition setShowEmojiPicker (v : bool) (s : State) : State :=
  mkState (messages s) (newMessage s) v (isUploading s) (isDragging s).

Definition setIsDragging (v : bool) (s : State) : State :=
  mkState (messages s) (newMessage s) (showEmojiPicker s) (isUploading s) v.

(** [{...message, avatar_url: v}] *)
Definition withAvatar (message : Message) (v : option string) : Message :=
  mkMessage (id message) (created_at message) (content message) (user_id message)
    (user_email message) (image_url message) (message_type message) (room_id message) v.

Record Profile : Type := mkProfile {
  profile_id : string;
  profile_avatar_url : option string
}.

Inductive Effect : Type :=
| SelectMessages (room : string)
| SelectProfiles (user_ids : list string)
| SelectProfile (user : string)
| ConsoleErrorProfiles
| ConsoleErrorMessages
| ToastError (msg : string).

Record Backend : Type := mkBackend {
  messages_select : string -> PostgrestResponse (list Message);
  profiles_select : list string -> PostgrestResponse (list Profile);
  profile_single : string -> option Profile
}.

Definition await {R} (request : Effect) (answer : R) : Handler State Effect R :=
  emit request ;; ret answer.

(** The avatar [fetchMessages] attaches to a message: that of the first
    profile with the id of the sender. *)
Definition avatarOf (profilesData : option (list Profile)) (sender : string)
  : option string :=
  orNull match profilesData with
         | Some l =>
             match find (fun profile => (profile_id profile =? sender)%string) l with
             | Some userProfile => profile_avatar_url userProfile
             | None => None
             end
         | None => None
         end.

Section Feed.
Variable roomId : string.

Definition fetchMessages (B : Backend) : Handler State Effect unit :=
  tryCatch
    (fetched <- await (SelectMessages roomId) (messages_select B roomId) ;;
     when (match error fetched with Some _ => true | None => false end)
          (emit (ToastError "Failed to fetch messages") ;; return_) ;;
     match data fetched with
     | None | Some [] => set (setMessages []) ;; return_
     | Some messagesData =>
       let uniqueUserIds := unique (map user_id messagesData) in
       profiles <- await (SelectProfiles uniqueUserIds) (profiles_select B uniqueUserIds) ;;
       when (match error profiles with Some _ => true | None => false end)
            (emit ConsoleErrorProfiles) ;;
       let messagesWithAvatars :=
         map (fun message => withAvatar message (avatarOf (data profiles) (user_id message)))
             messagesData in
       set (setMessages messagesWithAvatars)
     end)
    (fun _ => emit ConsoleErrorMessages ;; emit (ToastError "Failed to fetch messages")).

(** The kinds of change notification. *)
Inductive EventType : Type := INSERT | UPDATE | DELETE.

(** A notification of a change of [messages]: its kind and [payload.new]. *)
Record Payload : Type := mkPayload {
  eventType : EventType;
  new : Message
}.

(** The callback of the subscription to the messages of the room. *)
Definition onMessageChange (B : Backend) (payload : Payload) : Handler State Effect unit :=
  match eventType payload with
  | INSERT =>
    let newMessage := new payload in
    profileData <- await (SelectProfile (user_id newMessage))
                         (profile_single B (user_id newMessage)) ;;
    let messageWithAvatar :=
      withAvatar newMessage
        (orNull match profileData with
                | Some p => profile_avatar_url p
                | None => None
                end) in
    set (fun current => setMessages (messages current ++ [messageWithAvatar]) current)
  | _ => ret tt
  end.
End Feed.

(** The message the subscription shows for an inserted row. *)
Definition decorated (B : Backend) (m : Message) : Message :=
  withAvatar m
    (orNull match profile_single B (user_id m) with
            | Some p => profile_avatar_url p
            | None => None
            end).

(** The inserted rows among the notifications, in the order of arrival. *)
Definition insertedRows (payloads : list Payload) : list Message :=
  map new (filter (fun p => match eventType p with INSERT => true | _ => false end) payloads).

(** The state after the notifications [payloads] have been handled one
    after the other. *)
Definition deliver (B : Backend) (payloads : list Payload) (s : State) : State :=
  fold_left (fun st p => fst (run (onMessageChange B p) st)) payloads s.

(** A call of an [async] function from a handler that does not await it:
    the [return] of the callee ends the callee only. *)
Definition call {E} (m : Handler State E unit) : Handler State E unit :=
  fun s =>
    match m s with
    | (Return, s', t) => (Normal tt, s', t)
    | r => r
    end.

Section DropZone.
Variable session_user : User.
Variable roomId : string.

Definition onEmojiClick (emoji : string) : Handler State Chat.Effect unit :=
  set (fun prev => setNewMessage (newMessage prev ++ emoji)%string prev) ;;
  set (setShowEmojiPicker false).

Definition handleDragOver : Handler State Chat.Effect unit :=
  emit PreventDefault ;; set (setIsDragging true).

Definition handleDragLeave : Handler State Chat.Effect unit :=
  emit PreventDefault ;; set (setIsDragging false).

(** [handleDrop]; [files] is [e.dataTransfer.files]. *)
Definition handleDrop (B : Chat.Backend) (files : list File)
  : Handler State Chat.Effect unit :=
  emit PreventDefault ;;
  set (setIsDragging false) ;;
  match files with
  | file :: _ => call (handleImageUpload session_user roomId B file)
  | [] => ret tt
  end.
End DropZone.

Definition isUpload (ev : Chat.Effect) : bool :=
  match ev with StorageUpload _ _ => true | _ => false end.

(** The requests to the backend and to the object store among the effects. *)
Definition isRequest (ev : Chat.Effect) : bool :=
  match ev with
  | InsertMessage _ | StorageUpload _ _ | GetPublicUrl _ => true
  | _ => false
  end.

End ChatFeed.

(* ===================================================================== *)
(** ** More concrete situations *)
(* ===================================================================== *)

Module Cases.
Import Supabase.

(** The membership query is refused with an error object that is not an
    instance of [Error]. *)
Definition refusingBackend : RoomList.Backend :=
  RoomList.mkBackend (Success (Some []) None)
    (fun _ _ => Failure (mkError "permission denied" false))
    (fun _ => Success (Some []) (Some 0))
    (fun _ _ => Success None None).

(** User A has typed the name [Study], the password [abc123] and a
    capacity of 5 into the create form. *)
Definition studyForm : RoomList.State :=
  RoomList.mkState [] [] true false false None "Study" "abc123" 5 "" "".

Definition userA : RoomListForms.AuthUser :=
  RoomListForms.mkAuthUser "user-a" (Some "a@example.com").

(** The backend stores what it is given under the id [r9]. *)
Definition storing : RoomListForms.Backend :=
  RoomListForms.mkBackend (Some userA)
    (fun row =>
       inr (RoomList.mkRoom "r9" (RoomListForms.new_name row) "a@example.com"
              "2024-03-01T09:00:00Z" (RoomListForms.new_password_hash row)
              (RoomListForms.new_max_users row) (RoomListForms.new_owner_id row))).

Definition alice : RoomView.RoomUser :=
  RoomView.mkRoomUser "alice" "alice@example.com" None None None.

Definition bob : RoomView.RoomUser :=
  RoomView.mkRoomUser "bob" "bob@example.com" None None None.

(** The owner looks at a room with two members. *)
Definition ownerView : RoomView.State :=
  RoomView.mkState false true false [alice; bob] true.

(** The room of alice, joined by bob and then by alice; bob has no email
    row, alice has a profile with an empty avatar. *)
Definition detailsBackend : RoomViewMembers.Backend :=
  RoomViewMembers.mkBackend
    (fun _ => Some "alice")
    (fun _ => Success (Some [RoomViewMembers.mkMemberRow "bob";
                             RoomViewMembers.mkMemberRow "alice"]) None)
    (fun _ => Success (Some [RoomViewMembers.mkUserEmail "alice" (Some "alice@example.com")])
                      None)
    (fun _ => Some [RoomViewMembers.mkProfile "alice" (Some "")])
    (fun _ => None)
    (fun _ _ => None).

(** The reading of the creation timestamps that occur in the situations:
    10:00 UTC on 1 and on 2 January 2024 and 09:00 UTC on 1 March 2024;
    a string that is not a timestamp, like [soon], reads as NaN. *)
Definition clock (created_at : string) : JS.number :=
  if (created_at =? "2024-01-01T10:00:00Z")%string then Some 1704103200000
  else if (created_at =? "2024-01-02T10:00:00Z")%string then Some 1704189600000
  else if (created_at =? "2024-03-01T09:00:00Z")%string then Some 1709283600000
  else None.

(** A room named as its id, with the password [pw]. *)
Definition room (id owner created_at : string) : RoomList.Room :=
  RoomList.mkRoom id id "owner@example.com" created_at "pw" 10 owner.

(** Rooms of other users, the oldest first, and a room of user [u3]. *)
Definition january1 : RoomList.Room := room "a-jan1" "owner" "2024-01-01T10:00:00Z".
Definition january2 : RoomList.Room := room "c-jan2" "owner" "2024-01-02T10:00:00Z".
Definition march1 : RoomList.Room := room "d-mar1" "owner" "2024-03-01T09:00:00Z".
Definition mine : RoomList.Room := room "e-mine" "u3" "2024-01-01T10:00:00Z".

(** A room whose creation timestamp does not parse. *)
Definition undated : RoomList.Room := room "b-soon" "owner" "soon".

(** The rooms query answers the four dated rooms, oldest first. *)
Definition roomsBackend : RoomList.Backend :=
  RoomList.mkBackend (Success (Some [january1; january2; mine; march1]) None)
    (fun _ _ => Success None None)
    (fun _ => Success (Some []) (Some 0))
    (fun _ _ => Success None None).

Definition notes : Chat.File := Chat.mkFile "notes.txt" "text/plain".

(** The object store takes every upload; the backend refuses every
    message. *)
Definition refusingMessages : Chat.Backend :=
  Chat.mkBackend (fun _ => Failure (mkError "row violates policy" true))
    (fun _ _ => None)
    (fun path => ("https://cdn.example/" ++ path)%string)
    "0.42" true.

Definition hello (id sender : string) : Chat.Message :=
  Chat.mkMessage id "2024-03-01T09:00:00Z" "hello" sender "s@example.com" None
    Chat.text "r1" None.

(** Three messages of two senders. *)
Definition feedBackend : ChatFeed.Backend :=
  ChatFeed.mkBackend
    (fun _ => Success (Some [hello "m1" "u1"; hello "m2" "u2"; hello "m3" "u1"]) None)
    (fun _ => Success (Some [ChatFeed.mkProfile "u1" (Some "https://cdn.example/u1.png")])
                      None)
    (fun _ => None).

End Cases.

(* ===================================================================== *)
(** ** Facts about the built-ins *)
(* ===================================================================== *)

Section StringFacts.
Import JS.

Lemma trimStart_allWhiteSpace (s : string) :
  allWhiteSpace (trimStart s) = allWhiteSpace s.
Proof.
  induction s as [|c s IH]; simpl; [reflexivity|].
  destruct (isWhiteSpace c) eqn:Hc; simpl; [exact IH | now rewrite Hc].
Qed.

Lemma trimEnd_empty_iff (s : string) :
  trimEnd s = "" <-> allWhiteSpace s = true.
Proof.
  induction s as [|c s IH]; simpl; [tauto|].
  destruct (trimEnd s) eqn:Ht.
  - destruct (isWhiteSpace c); simpl.
    + split; intros _; [apply IH|]; reflexivity.
    + split; discriminate.
  - split; [discriminate|].
    intros H. apply andb_true_iff in H as [_ H].
    apply IH in H. discriminate.
Qed.

(** [s.trim()] is the empty string exactly when [s] is empty or made of
    white space only. *)
Lemma trim_empty_iff (s : string) :
  trim s = "" <-> allWhiteSpace s = true.
Proof.
  unfold trim. rewrite trimEnd_empty_iff, trimStart_allWhiteSpace. tauto.
Qed.

Lemma truthy_trim (s : string) :
  truthy (trim s) = negb (allWhiteSpace s).
Proof.
  destruct (allWhiteSpace s) eqn:H.
  - apply trim_empty_iff in H. now rewrite H.
  - destruct (trim s) eqn:Ht; [|reflexivity].
    apply trim_empty_iff in Ht. congruence.
Qed.

Lemma startsWith_spec (s q : string) :
  startsWith s q = true <-> exists post, s = (q ++ post)%string.
Proof.
  revert s. induction q as [|b q IH]; intros s; simpl.
  - split; [intros _; now exists s | reflexivity].
  - destruct s as [|a s].
    + split; [discriminate | intros [post H]; discriminate].
    + rewrite andb_true_iff, IH. split.
      * intros [Hab [post ->]]. apply Ascii.eqb_eq in Hab. subst. now exists post.
      * intros [post H]. injection H as -> ->. split; [apply Ascii.eqb_refl | now exists post].
Qed.

(** [s.includes(q)] holds exactly when [q] occurs in [s] as a substring. *)
Lemma includes_spec (s q : string) :
  includes s q = true <-> exists pre post, s = (pre ++ q ++ post)%string.
Proof.
  induction s as [|a s IH]; simpl.
  - rewrite orb_false_r, startsWith_spec. split.
    + intros [post H]. now exists "", post.
    + intros [pre [post H]]. destruct pre; [now exists post | discriminate].
  - rewrite orb_true_iff, startsWith_spec, IH. split.
    + intros [[post H] | [pre [post H]]].
      * now exists "", post.
      * exists (String a pre), post. simpl. now rewrite H.
    + intros [pre [post H]]. destruct pre as [|a' pre]; simpl in H.
      * left. now exists post.
      * right. injection H as _ H. now exists pre, post.
Qed.
End StringFacts.

Example trim_strips_both_ends : JS.trim "  abc 123 " = "abc 123".
Proof. reflexivity. Qed.

Example trim_of_spaces_is_empty : JS.trim "   " = "".
Proof. reflexivity. Qed.

Example toLowerCase_Study : JS.toLowerCase "Study R1" = "study r1".
Proof. reflexivity. Qed.

Example includes_inner : JS.includes "study" "tud" = true /\ JS.includes "study" "dy " = false.
Proof. split; reflexivity. Qed.

Example pop_split_extension :
  JS.pop (JS.split "."%char "holiday.2024.png") = "png" /\
  JS.pop (JS.split "."%char "holiday") = "holiday".
Proof. split; reflexivity. Qed.

(** The sort is stable: elements that compare equal keep their order. *)
Example sort_is_stable :
  JS.sort (fun a b : Z * string => fst a - fst b)
          [(2, "a"); (1, "b"); (2, "c"); (1, "d")]
  = [(1, "b"); (1, "d"); (2, "a"); (2, "c")].
Proof. reflexivity. Qed.

Section SortFacts.
Import JS.
Context {A : Type} (comparefn : A -> A -> Z).

Lemma insertSorted_Permutation (x : A) (l : list A) :
  Permutation (x :: l) (insertSorted comparefn x l).
Proof.
  induction l as [|y l IH]; simpl; [reflexivity|].
  destruct (comparefn x y <=? 0); [reflexivity|].
  rewrite perm_swap. now apply perm_skip.
Qed.

Lemma sort_Permutation (l : list A) : Permutation l (sort comparefn l).
Proof.
  induction l as [|x l IH]; simpl; [constructor|].
  rewrite <- insertSorted_Permutation. now apply perm_skip.
Qed.

(** The comparator is consistent: of two elements one may stand before
    the other, and "may stand before" is transitive. *)
Hypothesis comparefn_total : forall a b, 0 < comparefn a b -> comparefn b a <= 0.
Hypothesis comparefn_trans :
  forall a b c, inOrder comparefn a b -> inOrder comparefn b c -> inOrder comparefn a c.

Lemma insertSorted_StronglySorted (x : A) (l : list A) :
  StronglySorted (inOrder comparefn) l ->
  StronglySorted (inOrder comparefn) (insertSorted comparefn x l).
Proof.
  induction 1 as [|y l Hl IH Hy]; simpl.
  - repeat constructor.
  - destruct (Z.leb_spec (comparefn x y) 0) as [Hxy|Hxy].
    + constructor; [now constructor|].
      constructor; [exact Hxy|].
      eapply Forall_impl; [|exact Hy]. intros z. now apply comparefn_trans.
    + constructor; [exact IH|].
      rewrite <- insertSorted_Permutation.
      constructor; [now apply comparefn_total | exact Hy].
Qed.

Lemma sort_StronglySorted (l : list A) :
  StronglySorted (inOrder comparefn) (sort comparefn l).
Proof.
  induction l as [|x l IH]; simpl; [constructor|].
  now apply insertSorted_StronglySorted.
Qed.
End SortFacts.

(** In a strongly sorted list the relation holds between any earlier and
    any later position. *)
Lemma StronglySorted_nth_error {A} (R : A -> A -> Prop) (l : list A) :
  StronglySorted R l ->
  forall i j a b, (i < j)%nat -> nth_error l i = Some a -> nth_error l j = Some b -> R a b.
Proof.
  induction 1 as [|x l Hl IH Hx]; intros i j a b Hij Ha Hb.
  - destruct i; discriminate.
  - destruct j as [|j]; [lia|]. simpl in Hb.
    destruct i as [|i]; simpl in Ha.
    + injection Ha as <-. rewrite Forall_forall in Hx.
      apply Hx. eapply nth_error_In; eassumption.
    + apply (IH i j); [lia | assumption | assumption].
Qed.

(* ===================================================================== *)
(** ** The order of the room directory *)
(* ===================================================================== *)

(** Two comparators that agree on the elements of a list sort it alike. *)
Lemma sort_ext_in {A} (c1 c2 : A -> A -> Z) (l : list A) :
  (forall a b, In a l -> In b l -> c1 a b = c2 a b) ->
  JS.sort c1 l = JS.sort c2 l.
Proof.
  induction l as [|x l IH]; intros H; simpl; [reflexivity|].
  fold (JS.sort c1 l) (JS.sort c2 l).
  rewrite IH by (intros a b Ha Hb; apply H; now right).
  assert (Hsub : forall y, In y (JS.sort c2 l) -> In y l).
  { intros y. apply Permutation_in, Permutation_sym, sort_Permutation. }
  revert Hsub. generalize (JS.sort c2 l). intros m Hsub.
  induction m as [|y m IHm]; simpl; [reflexivity|].
  rewrite (H x y (or_introl eq_refl) (or_intror (Hsub y (or_introl eq_refl)))).
  destruct (c2 x y <=? 0); [reflexivity|].
  f_equal. apply IHm. intros z Hz. apply Hsub. now right.
Qed.

Section DirectoryOrder.
Import JS Supabase Handler RoomList.
Variable Date_getTime : string -> number.
Variable session_user_id : string.

(** On rooms whose timestamps parse, the comparator of the directory is
    the comparator on instants. *)
Lemma compareRooms_parsed (a b : Room) :
  parses Date_getTime a -> parses Date_getTime b ->
  SortCompare (compareRooms Date_getTime session_user_id a b)
  = compareInstants Date_getTime session_user_id a b.
Proof.
  unfold parses, compareRooms, compareInstants, instant, ownedBy.
  intros Ha Hb.
  destruct (Date_getTime (created_at a)) as [ta|]; [|contradiction].
  destruct (Date_getTime (created_at b)) as [tb|]; [|contradiction].
  destruct (owner_id a =? session_user_id)%string,
           (owner_id b =? session_user_id)%string; reflexivity.
Qed.

(** What the comparator on instants says: a room may stand before another
    when it is the user's and the other is not, or when both are on the
    same side and it is not older. *)
Lemma compareInstants_inOrder (a b : Room) :
  inOrder (compareInstants Date_getTime session_user_id) a b <->
  (ownedBy session_user_id a = true /\ ownedBy session_user_id b = false) \/
  (ownedBy session_user_id a = ownedBy session_user_id b /\
   instant Date_getTime b <= instant Date_getTime a).
Proof.
  unfold inOrder, compareInstants.
  destruct (ownedBy session_user_id a), (ownedBy session_user_id b); simpl;
    intuition (try discriminate; try lia).
Qed.

Lemma compareInstants_total (a b : Room) :
  0 < compareInstants Date_getTime session_user_id a b ->
  compareInstants Date_getTime session_user_id b a <= 0.
Proof.
  unfold compareInstants.
  destruct (ownedBy session_user_id a), (ownedBy session_user_id b); simpl; lia.
Qed.

Lemma compareInstants_trans (a b c : Room) :
  inOrder (compareInstants Date_getTime session_user_id) a b ->
  inOrder (compareInstants Date_getTime session_user_id) b c ->
  inOrder (compareInstants Date_getTime session_user_id) a c.
Proof.
  rewrite !compareInstants_inOrder.
  destruct (ownedBy session_user_id a), (ownedBy session_user_id b),
           (ownedBy session_user_id c);
    intuition (try discriminate; try lia).
Qed.

Lemma sortRooms_Permutation (l : list Room) :
  Permutation l (sortRooms Date_getTime session_user_id l).
Proof. apply sort_Permutation. Qed.

Lemma sortRooms_In (l : list Room) (r : Room) :
  In r (sortRooms Date_getTime session_user_id l) <-> In r l.
Proof.
  split; apply Permutation_in;
    [apply Permutation_sym|]; apply sortRooms_Permutation.
Qed.

(** On rooms whose timestamps all parse, the sort of the directory is the
    sort by the comparator on instants. *)
Lemma sortRooms_parsed (l : list Room) :
  Forall (parses Date_getTime) l ->
  sortRooms Date_getTime session_user_id l
  = sort (compareInstants Date_getTime session_user_id) l.
Proof.
  intros Hl. rewrite Forall_forall in Hl.
  apply sort_ext_in. intros a b Ha Hb. apply compareRooms_parsed; auto.
Qed.

Lemma sortRooms_parses (l : list Room) :
  Forall (parses Date_getTime) l ->
  Forall (parses Date_getTime) (sortRooms Date_getTime session_user_id l).
Proof.
  intros Hl. apply Forall_forall. intros r Hr.
  rewrite Forall_forall in Hl. apply Hl.
  apply (proj1 (sortRooms_In l r)). exact Hr.
Qed.

Lemma sortRooms_StronglySorted (l : list Room) :
  Forall (parses Date_getTime) l ->
  StronglySorted (inOrder (compareInstants Date_getTime session_user_id))
                 (sortRooms Date_getTime session_user_id l).
Proof.
  intros Hl. rewrite sortRooms_parsed by exact Hl.
  apply sort_StronglySorted; [exact compareInstants_total | exact compareInstants_trans].
Qed.

(** A list of rooms with parsing timestamps that is sorted by the
    comparator on instants is in the order of the directory. *)
Lemma StronglySorted_inDirectoryOrder (l : list Room) :
  Forall (parses Date_getTime) l ->
  StronglySorted (inOrder (compareInstants Date_getTime session_user_id)) l ->
  inDirectoryOrder Date_getTime session_user_id l.
Proof.
  intros Hl Hs i j a b Hij Ha Hb.
  assert (H : inOrder (compareInstants Date_getTime session_user_id) a b)
    by (eapply StronglySorted_nth_error; eassumption).
  apply compareInstants_inOrder in H.
  rewrite Forall_forall in Hl.
  pose proof (Hl a (nth_error_In _ _ Ha)) as Pa.
  pose proof (Hl b (nth_error_In _ _ Hb)) as Pb.
  unfold parses in Pa, Pb. unfold notOlder, instant in *.
  destruct (Date_getTime (created_at a)) as [ta|]; [|contradiction].
  destruct (Date_getTime (created_at b)) as [tb|]; [|contradiction].
  simpl in H.
  destruct H as [[Ha' Hb'] | [Heq Ht]]; split.
  - intros _. exact Ha'.
  - intros E. rewrite Ha', Hb' in E. discriminate.
  - intros Hb'. now rewrite Heq.
  - intros _. exists ta, tb. auto.
Qed.

Lemma sortRooms_inDirectoryOrder (l : list Room) :
  Forall (parses Date_getTime) l ->
  inDirectoryOrder Date_getTime session_user_id (sortRooms Date_getTime session_user_id l).
Proof.
  intros Hl. apply StronglySorted_inDirectoryOrder;
    [now apply sortRooms_parses | now apply sortRooms_StronglySorted].
Qed.

(** [fetchRooms] stores the rows of a successful answer, sorted, as the
    rooms and as the filtered rooms. *)
Lemma fetchRooms_stores_sortRooms (B : Backend) (s : State) (rows : list Room) (n : option Z) :
  rooms_select B = Success (Some rows) n ->
  run (fetchRooms Date_getTime session_user_id B) s =
  (setFilteredRooms (sortRooms Date_getTime session_user_id rows)
     (setRooms (sortRooms Date_getTime session_user_id rows) s),
   [SelectRooms]).
Proof.
  intros H.
  cbv [run fetchRooms RoomList.await when bind emit set ret return_].
  rewrite H. reflexivity.
Qed.

(** With a blank query the search effect shows every room, sorted. *)
Lemma searchResult_blank_query (searchQuery : string) (l : list Room) :
  trim searchQuery = "" ->
  searchResult Date_getTime session_user_id searchQuery l
  = sortRooms Date_getTime session_user_id l.
Proof. intros H. unfold searchResult. now rewrite H. Qed.
End DirectoryOrder.

(** C5, as the code has it.  For every list of rooms whose creation
    timestamps all parse as dates and every current user, the sort of the
    room directory keeps exactly the rooms it was given, places every room
    whose [owner_id] is the user's id before every room whose [owner_id] is
    not, and orders the rooms of each of the two groups by [created_at]
    descending: of two positions [i < j] of the result, the later one
    holds a room of the user only if the earlier one does, and when both
    rooms are in the same group the earlier one is not older. *)
Theorem sortRooms_owner_first_newest_first :
  forall (Date_getTime : string -> JS.number) (session_user_id : string)
         (rooms : list RoomList.Room),
    (forall r, In r rooms -> Date_getTime (RoomList.created_at r) <> None) ->
    let sorted := RoomList.sortRooms Date_getTime session_user_id rooms in
    Permutation rooms sorted /\
    forall i j a b,
      (i < j)%nat -> nth_error sorted i = Some a -> nth_error sorted j = Some b ->
      (RoomList.ownedBy session_user_id b = true ->
       RoomList.ownedBy session_user_id a = true) /\
      (RoomList.ownedBy session_user_id a = RoomList.ownedBy session_user_id b ->
       exists ta tb,
         Date_getTime (RoomList.created_at a) = Some ta /\
         Date_getTime (RoomList.created_at b) = Some tb /\
         tb <= ta).
Proof.
  intros getTime uid rooms Hparse sorted. split.
  - apply sortRooms_Permutation.
  - assert (Hall : Forall (RoomList.parses getTime) rooms)
      by (apply Forall_forall; exact Hparse).
    exact (sortRooms_inDirectoryOrder getTime uid rooms Hall).
Qed.

Lemma sortRooms_owner_first_newest_first_witness :
  let rooms := [Cases.january1; Cases.january2; Cases.mine; Cases.march1] in
  let sorted := RoomList.sortRooms Cases.clock "u3" rooms in
  sorted = [Cases.mine; Cases.march1; Cases.january2; Cases.january1] /\
  Permutation rooms sorted /\
  forall i j a b,
    (i < j)%nat -> nth_error sorted i = Some a -> nth_error sorted j = Some b ->
    (RoomList.ownedBy "u3" b = true -> RoomList.ownedBy "u3" a = true) /\
    (RoomList.ownedBy "u3" a = RoomList.ownedBy "u3" b ->
     exists ta tb,
       Cases.clock (RoomList.created_at a) = Some ta /\
       Cases.clock (RoomList.created_at b) = Some tb /\
       tb <= ta).
Proof.
  split; [reflexivity|].
  apply (sortRooms_owner_first_newest_first Cases.clock "u3"
           [Cases.january1; Cases.january2; Cases.mine; Cases.march1]).
  intros r Hr. simpl in Hr.
  repeat (destruct Hr as [<-|Hr]; [discriminate|]). contradiction.
Defined.

(** Three rooms of other users are listed oldest first, the middle one
    with a creation timestamp that does not parse: the sort leaves them as
    they are, so that the room of 1 January stands before the room of
    2 January of the same group. *)
Lemma sortRooms_unparsed_timestamp_keeps_older_first :
  let rooms := [Cases.january1; Cases.undated; Cases.january2] in
  let sorted := RoomList.sortRooms Cases.clock "u3" rooms in
  sorted = [Cases.january1; Cases.undated; Cases.january2] /\
  nth_error sorted 0 = Some Cases.january1 /\
  nth_error sorted 2 = Some Cases.january2 /\
  RoomList.ownedBy "u3" Cases.january1 = RoomList.ownedBy "u3" Cases.january2 /\
  Cases.clock (RoomList.created_at Cases.january1) = Some 1704103200000 /\
  Cases.clock (RoomList.created_at Cases.january2) = Some 1704189600000 /\
  1704103200000 < 1704189600000.
Proof. repeat split. Qed.

(* ===================================================================== *)
(** ** Searching the directory *)
(* ===================================================================== *)

(** C6, as the code has it.  For every set of rooms and every search query
    that is not empty or white space only, the filtered directory holds
    exactly the rooms whose id or name contains the query when letter case
    is ignored; a query that no id and no name contains gives an empty
    result. *)
Theorem searchResult_nonblank_query :
  forall (Date_getTime : string -> JS.number) (session_user_id searchQuery : string)
         (rooms : list RoomList.Room),
    JS.trim searchQuery <> "" ->
    let result := RoomList.searchResult Date_getTime session_user_id searchQuery rooms in
    (forall r,
        In r result <->
        In r rooms /\
        (RoomList.containsIgnoringCase (RoomList.id r) searchQuery \/
         RoomList.containsIgnoringCase (RoomList.name r) searchQuery)) /\
    ((forall r, In r rooms ->
                ~ RoomList.containsIgnoringCase (RoomList.id r) searchQuery /\
                ~ RoomList.containsIgnoringCase (RoomList.name r) searchQuery) ->
     result = []).
Proof.
  intros getTime uid q rooms Hq result.
  assert (Hin : forall r,
             In r result <->
             In r rooms /\
             (RoomList.containsIgnoringCase (RoomList.id r) q \/
              RoomList.containsIgnoringCase (RoomList.name r) q)).
  { intros r. subst result. unfold RoomList.searchResult.
    apply String.eqb_neq in Hq. rewrite Hq.
    rewrite sortRooms_In, filter_In, orb_true_iff, !includes_spec.
    reflexivity. }
  split; [exact Hin|].
  intros Hnone. destruct result as [|r rest]; [reflexivity|].
  destruct (proj1 (Hin r) (or_introl eq_refl)) as [Hr Hm].
  destruct (Hnone r Hr). tauto.
Qed.

Lemma searchResult_nonblank_query_witness :
  JS.trim "stu" <> "" /\
  let result := RoomList.searchResult Scenario.sameInstant "u3" "stu" [Scenario.r1] in
  (forall r,
      In r result <->
      In r [Scenario.r1] /\
      (RoomList.containsIgnoringCase (RoomList.id r) "stu" \/
       RoomList.containsIgnoringCase (RoomList.name r) "stu")) /\
  ((forall r, In r [Scenario.r1] ->
              ~ RoomList.containsIgnoringCase (RoomList.id r) "stu" /\
              ~ RoomList.containsIgnoringCase (RoomList.name r) "stu") ->
   result = []).
Proof.
  split; [discriminate|].
  apply (searchResult_nonblank_query Scenario.sameInstant "u3" "stu" [Scenario.r1]).
  discriminate.
Defined.

(** A query of one space is not empty and occurs neither in the id nor in
    the name of the room, yet the room is in the result, which is not
    empty. *)
Lemma searchResult_space_query_keeps_every_room :
  " " <> "" /\
  ~ RoomList.containsIgnoringCase (RoomList.id Scenario.r1) " " /\
  ~ RoomList.containsIgnoringCase (RoomList.name Scenario.r1) " " /\
  RoomList.searchResult Scenario.sameInstant "u3" " " [Scenario.r1] = [Scenario.r1].
Proof.
  unfold RoomList.containsIgnoringCase.
  repeat split; try discriminate;
    intros H; apply includes_spec in H; discriminate H.
Qed.

(* ===================================================================== *)
(** ** Joining a room *)
(* ===================================================================== *)

Lemma truthy_true_iff (s : string) : JS.truthy s = true <-> s <> "".
Proof. destruct s; simpl; split; congruence. Qed.

(** Unfolds a handler down to the tests on its inputs. *)
Ltac handler :=
  cbv [RoomList.joinAttempt Handler.run RoomList.joinRoom RoomList.await
       RoomList.throwIf Handler.when Handler.tryCatch Handler.tryFinally
       Handler.bind Handler.emit Handler.set Handler.ret Handler.return_
       Handler.throw].

(** Settles the tests of [joinRoom] from the facts in the context. *)
Ltac decide_tests :=
  repeat match goal with
    | H : RoomList.selectedRoom _ = Some _ |- _ => rewrite H
    | H : JS.trim ?p <> "" |- _ => apply truthy_true_iff in H; rewrite H
    | H : JS.trim ?p = "" |- _ => rewrite H
    | H : ?p <> ?q |- context [(?p =? ?q)%string] =>
        rewrite (proj2 (String.eqb_neq p q) H)
    | H : ?p = ?q |- context [(?p =? ?q)%string] =>
        rewrite (proj2 (String.eqb_eq p q) H)
    | H : Supabase.error _ = _ |- _ => rewrite H
    | H : Supabase.data _ = _ |- _ => rewrite H
    | H : Supabase.count _ = _ |- _ => rewrite H
    end;
  cbn [negb].

Section JoinFacts.
Import JS Supabase Handler RoomList.

(** A join attempt with a password that differs from the stored one ends
    after the notice, whatever the backend would answer. *)
Lemma joinAttempt_wrong_password (uid : string) (B : Backend) (s : State) (room : Room) :
  selectedRoom s = Some room ->
  joinPassword s <> password_hash room ->
  joinAttempt uid B s =
  (s, PreventDefault ::
      (if truthy (trim (joinPassword s))
       then [incorrectPasswordNotice]
       else [ToastError "Room password is required"])).
Proof.
  intros Hsel Hpw. handler. decide_tests.
  destruct (truthy (trim (joinPassword s))); reflexivity.
Qed.

(** A join attempt with a blank password ends after the notice. *)
Lemma joinAttempt_blank_password (uid : string) (B : Backend) (s : State) (room : Room) :
  selectedRoom s = Some room ->
  trim (joinPassword s) = "" ->
  joinAttempt uid B s = (s, [PreventDefault; ToastError "Room password is required"]).
Proof. intros Hsel Hpw. handler. decide_tests. reflexivity. Qed.

(** The user is a member already. *)
Lemma joinAttempt_member (uid : string) (B : Backend) (s : State) (room : Room) (row : RoomUser) :
  selectedRoom s = Some room ->
  trim (joinPassword s) <> "" ->
  joinPassword s = password_hash room ->
  error (room_users_maybeSingle B (id room) uid) = None ->
  data (room_users_maybeSingle B (id room) uid) = Some row ->
  joinAttempt uid B s =
  (setJoinPassword "" (setShowJoinModal false s),
   [PreventDefault; SelectMembership (id room) uid; OnRoomSelect (id room)]).
Proof. intros Hsel Hne Hpw He Hd. handler. decide_tests. reflexivity. Qed.

(** The room is full. *)
Lemma joinAttempt_full (uid : string) (B : Backend) (s : State) (room : Room) (c : Z) :
  selectedRoom s = Some room ->
  trim (joinPassword s) <> "" ->
  joinPassword s = password_hash room ->
  error (room_users_maybeSingle B (id room) uid) = None ->
  data (room_users_maybeSingle B (id room) uid) = None ->
  error (room_users_count B (id room)) = None ->
  count (room_users_count B (id room)) = Some c ->
  c >= max_users room ->
  joinAttempt uid B s =
  (setJoinPassword "" (setShowJoinModal false s),
   [PreventDefault; SelectMembership (id room) uid; CountMemberships (id room);
    roomFullNotice]).
Proof.
  intros Hsel Hne Hpw He Hd Hce Hc Hfull. handler. decide_tests.
  assert (Hge : (c >=? max_users room) = true) by (apply Z.geb_le; lia).
  rewrite Hge. reflexivity.
Qed.

End JoinFacts.

(** C1, as the code has it.  For every join attempt with a password that is
    not blank (not empty once white space is trimmed) and equals the stored
    one, by a user for whom the membership query finds no row, on a room
    for which the count query returns a count of at least [max_users]:
    [joinRoom] shows the room-full notice, requests no membership insert
    and does not call [onRoomSelect]. *)
Theorem joinRoom_full_room_is_rejected :
  forall (session_user_id : string) (B : RoomList.Backend) (s : RoomList.State)
         (room : RoomList.Room) (c : Z),
    RoomList.selectedRoom s = Some room ->
    JS.trim (RoomList.joinPassword s) <> "" ->
    RoomList.joinPassword s = RoomList.password_hash room ->
    Supabase.error (RoomList.room_users_maybeSingle B (RoomList.id room) session_user_id) = None ->
    Supabase.data (RoomList.room_users_maybeSingle B (RoomList.id room) session_user_id) = None ->
    Supabase.error (RoomList.room_users_count B (RoomList.id room)) = None ->
    Supabase.count (RoomList.room_users_count B (RoomList.id room)) = Some c ->
    c >= RoomList.max_users room ->
    let effects := snd (RoomList.joinAttempt session_user_id B s) in
    In RoomList.roomFullNotice effects /\
    RoomList.insertsMembership effects = false /\
    RoomList.navigates effects = false.
Proof.
  intros uid B s room c Hsel Hne Hpw He Hd Hce Hc Hfull effects. subst effects.
  rewrite (joinAttempt_full uid B s room c) by assumption.
  cbn. intuition.
Qed.

Lemma joinRoom_full_room_is_rejected_witness :
  let s := Scenario.joining Scenario.r1 "abc123" in
  let B := Scenario.countBackend (Some 2) in
  let effects := snd (RoomList.joinAttempt "u3" B s) in
  In RoomList.roomFullNotice effects /\
  RoomList.insertsMembership effects = false /\
  RoomList.navigates effects = false.
Proof.
  apply (joinRoom_full_room_is_rejected "u3" (Scenario.countBackend (Some 2))
           (Scenario.joining Scenario.r1 "abc123") Scenario.r1 2);
    try reflexivity; try discriminate; simpl; lia.
Defined.

(** A single space is typed as the password of a full room whose stored
    password is a single space: the password matches, the user has no
    membership row, the count equals [max_users], and the only notice is
    the one asking for a password. *)
Lemma joinRoom_full_room_space_password :
  let s := Scenario.joining Scenario.blankRoom " " in
  let B := Scenario.countBackend (Some 2) in
  RoomList.selectedRoom s = Some Scenario.blankRoom /\
  RoomList.joinPassword s = RoomList.password_hash Scenario.blankRoom /\
  Supabase.error (RoomList.room_users_maybeSingle B "r2" "u3") = None /\
  Supabase.data (RoomList.room_users_maybeSingle B "r2" "u3") = None /\
  Supabase.error (RoomList.room_users_count B "r2") = None /\
  Supabase.count (RoomList.room_users_count B "r2") = Some 2 /\
  2 >= RoomList.max_users Scenario.blankRoom /\
  snd (RoomList.joinAttempt "u3" B s)
  = [RoomList.PreventDefault; RoomList.ToastError "Room password is required"] /\
  ~ In RoomList.roomFullNotice (snd (RoomList.joinAttempt "u3" B s)).
Proof.
  cbn. repeat split; try reflexivity; try lia.
  intros [H | [H | []]]; discriminate H.
Qed.

(** C2.  For every join attempt in which the password supplied is not empty
    and differs from the password stored with the room, [joinRoom] requests
    no membership insert and does not call [onRoomSelect]. *)
Theorem joinRoom_wrong_password_no_insert_no_navigation :
  forall (session_user_id : string) (B : RoomList.Backend) (s : RoomList.State)
         (room : RoomList.Room),
    RoomList.selectedRoom s = Some room ->
    RoomList.joinPassword s <> "" ->
    RoomList.joinPassword s <> RoomList.password_hash room ->
    let effects := snd (RoomList.joinAttempt session_user_id B s) in
    RoomList.insertsMembership effects = false /\
    RoomList.navigates effects = false.
Proof.
  intros uid B s room Hsel _ Hpw effects. subst effects.
  rewrite (joinAttempt_wrong_password uid B s room) by assumption.
  cbn. destruct (JS.truthy (JS.trim (RoomList.joinPassword s))); split; reflexivity.
Qed.

Lemma joinRoom_wrong_password_no_insert_no_navigation_witness :
  let s := Scenario.joining Scenario.r1 "abc124" in
  let effects := snd (RoomList.joinAttempt "u3" (Scenario.countBackend (Some 0)) s) in
  RoomList.insertsMembership effects = false /\
  RoomList.navigates effects = false.
Proof.
  apply (joinRoom_wrong_password_no_insert_no_navigation "u3"
           (Scenario.countBackend (Some 0)) (Scenario.joining Scenario.r1 "abc124")
           Scenario.r1);
    [reflexivity | discriminate | discriminate].
Defined.

(** C3, as the code has it.  For the two business-rule rejections of a
    join attempt with a password that is not blank: on the room-full
    rejection [joinRoom] shows the room-full notice and has set the
    show-join-modal flag to false when it returns; on the
    incorrect-password rejection it shows the incorrect-password notice and
    leaves the show-join-modal flag as it was. *)
Theorem joinRoom_rejections_notice_and_modal :
  forall (session_user_id : string) (B : RoomList.Backend) (s : RoomList.State)
         (room : RoomList.Room),
    RoomList.selectedRoom s = Some room ->
    JS.trim (RoomList.joinPassword s) <> "" ->
    let after := RoomList.joinAttempt session_user_id B s in
    (forall c : Z,
        RoomList.joinPassword s = RoomList.password_hash room ->
        Supabase.error (RoomList.room_users_maybeSingle B (RoomList.id room) session_user_id) = None ->
        Supabase.data (RoomList.room_users_maybeSingle B (RoomList.id room) session_user_id) = None ->
        Supabase.error (RoomList.room_users_count B (RoomList.id room)) = None ->
        Supabase.count (RoomList.room_users_count B (RoomList.id room)) = Some c ->
        c >= RoomList.max_users room ->
        In RoomList.roomFullNotice (snd after) /\
        RoomList.showJoinModal (fst after) = false) /\
    (RoomList.joinPassword s <> RoomList.password_hash room ->
     In RoomList.incorrectPasswordNotice (snd after) /\
     RoomList.showJoinModal (fst after) = RoomList.showJoinModal s).
Proof.
  intros uid B s room Hsel Hne after. subst after. split.
  - intros c Hpw He Hd Hce Hc Hfull.
    rewrite (joinAttempt_full uid B s room c) by assumption.
    cbn. intuition.
  - intros Hpw.
    rewrite (joinAttempt_wrong_password uid B s room) by assumption.
    apply truthy_true_iff in Hne. rewrite Hne. cbn. intuition.
Qed.

Lemma joinRoom_rejections_notice_and_modal_witness :
  let s := Scenario.joining Scenario.r1 "abc123" in
  let B := Scenario.countBackend (Some 2) in
  let after := RoomList.joinAttempt "u3" B s in
  (forall c : Z,
      RoomList.joinPassword s = RoomList.password_hash Scenario.r1 ->
      Supabase.error (RoomList.room_users_maybeSingle B (RoomList.id Scenario.r1) "u3") = None ->
      Supabase.data (RoomList.room_users_maybeSingle B (RoomList.id Scenario.r1) "u3") = None ->
      Supabase.error (RoomList.room_users_count B (RoomList.id Scenario.r1)) = None ->
      Supabase.count (RoomList.room_users_count B (RoomList.id Scenario.r1)) = Some c ->
      c >= RoomList.max_users Scenario.r1 ->
      In RoomList.roomFullNotice (snd after) /\
      RoomList.showJoinModal (fst after) = false) /\
  (RoomList.joinPassword s <> RoomList.password_hash Scenario.r1 ->
   In RoomList.incorrectPasswordNotice (snd after) /\
   RoomList.showJoinModal (fst after) = RoomList.showJoinModal s).
Proof.
  apply (joinRoom_rejections_notice_and_modal "u3" (Scenario.countBackend (Some 2))
           (Scenario.joining Scenario.r1 "abc123") Scenario.r1);
    [reflexivity | discriminate].
Defined.

(** The join modal is open and a wrong password is submitted: the
    incorrect-password notice is shown and the show-join-modal flag is
    still true when the handler has returned. *)
Lemma joinRoom_wrong_password_leaves_modal_open :
  let s := Scenario.joining Scenario.r1 "abc124" in
  let after := RoomList.joinAttempt "u3" (Scenario.countBackend (Some 0)) s in
  RoomList.joinPassword s <> RoomList.password_hash Scenario.r1 /\
  RoomList.showJoinModal s = true /\
  snd after = [RoomList.PreventDefault; RoomList.incorrectPasswordNotice] /\
  RoomList.showJoinModal (fst after) = true.
Proof. cbn. repeat split; try reflexivity. discriminate. Qed.

(** C4, as the code has it.  For every join attempt by a user for whom the
    membership query finds a row, with a password that is not blank (not
    empty once white space is trimmed) and equals the stored one,
    [joinRoom] requests no membership insert and calls [onRoomSelect] with
    the id of the room. *)
Theorem joinRoom_member_navigates_without_insert :
  forall (session_user_id : string) (B : RoomList.Backend) (s : RoomList.State)
         (room : RoomList.Room) (row : RoomList.RoomUser),
    RoomList.selectedRoom s = Some room ->
    JS.trim (RoomList.joinPassword s) <> "" ->
    RoomList.joinPassword s = RoomList.password_hash room ->
    Supabase.error (RoomList.room_users_maybeSingle B (RoomList.id room) session_user_id) = None ->
    Supabase.data (RoomList.room_users_maybeSingle B (RoomList.id room) session_user_id) = Some row ->
    let effects := snd (RoomList.joinAttempt session_user_id B s) in
    RoomList.insertsMembership effects = false /\
    In (RoomList.OnRoomSelect (RoomList.id room)) effects.
Proof.
  intros uid B s room row Hsel Hne Hpw He Hd effects. subst effects.
  rewrite (joinAttempt_member uid B s room row) by assumption.
  cbn. intuition.
Qed.

Lemma joinRoom_member_navigates_without_insert_witness :
  let s := Scenario.joining Scenario.r1 "abc123" in
  let effects := snd (RoomList.joinAttempt "u3" Scenario.memberBackend s) in
  RoomList.insertsMembership effects = false /\
  In (RoomList.OnRoomSelect "r1") effects.
Proof.
  apply (joinRoom_member_navigates_without_insert "u3" Scenario.memberBackend
           (Scenario.joining Scenario.r1 "abc123") Scenario.r1
           (RoomList.mkRoomUser "r1" "u3"));
    try reflexivity; discriminate.
Defined.

(** A member types a single space as the password of a room whose stored
    password is a single space: the password is not empty and matches, yet
    [onRoomSelect] is not called. *)
Lemma joinRoom_member_space_password_stays_out :
  let s := Scenario.joining Scenario.blankRoom " " in
  let effects := snd (RoomList.joinAttempt "u3" Scenario.memberBackend s) in
  RoomList.joinPassword s <> "" /\
  RoomList.joinPassword s = RoomList.password_hash Scenario.blankRoom /\
  Supabase.data (RoomList.room_users_maybeSingle Scenario.memberBackend "r2" "u3")
  = Some (RoomList.mkRoomUser "r2" "u3") /\
  effects = [RoomList.PreventDefault; RoomList.ToastError "Room password is required"] /\
  RoomList.navigates effects = false.
Proof. cbn. repeat split; try reflexivity. discriminate. Qed.

(** C10, as the code has it.  When the password is not blank and equals the
    stored one, the membership query finds no row, and the count query
    answers without an error and without a count, [joinRoom] skips the
    capacity check and requests the membership insert right after the
    count query, whatever [max_users] is; if the insert succeeds the user
    is taken into the room. *)
Theorem joinRoom_null_count_bypasses_capacity :
  forall (session_user_id : string) (B : RoomList.Backend) (s : RoomList.State)
         (room : RoomList.Room),
    RoomList.selectedRoom s = Some room ->
    JS.trim (RoomList.joinPassword s) <> "" ->
    RoomList.joinPassword s = RoomList.password_hash room ->
    Supabase.error (RoomList.room_users_maybeSingle B (RoomList.id room) session_user_id) = None ->
    Supabase.data (RoomList.room_users_maybeSingle B (RoomList.id room) session_user_id) = None ->
    Supabase.error (RoomList.room_users_count B (RoomList.id room)) = None ->
    Supabase.count (RoomList.room_users_count B (RoomList.id room)) = None ->
    exists s' rest,
      RoomList.joinAttempt session_user_id B s =
      (s', [RoomList.PreventDefault;
            RoomList.SelectMembership (RoomList.id room) session_user_id;
            RoomList.CountMemberships (RoomList.id room);
            RoomList.InsertMembership (RoomList.id room) session_user_id] ++ rest) /\
      (Supabase.error (RoomList.room_users_insert B (RoomList.id room) session_user_id) = None ->
       s' = RoomList.setJoinPassword "" (RoomList.setShowJoinModal false s) /\
       rest = [RoomList.OnRoomSelect (RoomList.id room);
               RoomList.ToastSuccess "Successfully joined the room!"]).
Proof.
  intros uid B s room Hsel Hne Hpw He Hd Hce Hc. handler. decide_tests.
  destruct (Supabase.error (RoomList.room_users_insert B (RoomList.id room) uid))
    as [e|] eqn:Hins; cbn.
  - destruct (Supabase.instanceofError e); cbn;
      eexists _, _; (split; [reflexivity | discriminate]).
  - eexists _, _. split; [reflexivity|]. intros _. split; reflexivity.
Qed.

Lemma joinRoom_null_count_bypasses_capacity_witness :
  let s := Scenario.joining Scenario.r1 "abc123" in
  let B := Scenario.countBackend None in
  exists s' rest,
    RoomList.joinAttempt "u3" B s =
    (s', [RoomList.PreventDefault; RoomList.SelectMembership "r1" "u3";
          RoomList.CountMemberships "r1"; RoomList.InsertMembership "r1" "u3"] ++ rest) /\
    (Supabase.error (RoomList.room_users_insert B "r1" "u3") = None ->
     s' = RoomList.setJoinPassword "" (RoomList.setShowJoinModal false s) /\
     rest = [RoomList.OnRoomSelect "r1";
             RoomList.ToastSuccess "Successfully joined the room!"]).
Proof.
  apply (joinRoom_null_count_bypasses_capacity "u3" (Scenario.countBackend None)
           (Scenario.joining Scenario.r1 "abc123") Scenario.r1);
    try reflexivity; discriminate.
Defined.

(** A single space is typed as the password of a room whose stored password
    is a single space, and the count query would answer without a count:
    the password matches, the user has no membership row, no query fails,
    and no membership insert is requested. *)
Lemma joinRoom_null_count_space_password_no_insert :
  let s := Scenario.joining Scenario.blankRoom " " in
  let B := Scenario.countBackend None in
  let effects := snd (RoomList.joinAttempt "u3" B s) in
  RoomList.joinPassword s = RoomList.password_hash Scenario.blankRoom /\
  Supabase.error (RoomList.room_users_maybeSingle B "r2" "u3") = None /\
  Supabase.data (RoomList.room_users_maybeSingle B "r2" "u3") = None /\
  Supabase.error (RoomList.room_users_count B "r2") = None /\
  Supabase.count (RoomList.room_users_count B "r2") = None /\
  effects = [RoomList.PreventDefault; RoomList.ToastError "Room password is required"] /\
  RoomList.insertsMembership effects = false.
Proof. cbn. repeat split; reflexivity. Qed.

(* ===================================================================== *)
(** ** The views of a room *)
(* ===================================================================== *)

Section ViewFacts.
Import RoomView.

(** No click shows the chat and the leaderboard together. *)
Lemma onClick_not_chat_and_leaderboard (b : Button) (s : State) :
  showChat s && showLeaderboard s = false ->
  showChat (onClick b s) && showLeaderboard (onClick b s) = false.
Proof.
  destruct b; simpl; intros H; auto using andb_false_r.
Qed.

Lemma clicks_not_chat_and_leaderboard (bs : list Button) (s : State) :
  showChat s && showLeaderboard s = false ->
  showChat (clicks bs s) && showLeaderboard (clicks bs s) = false.
Proof.
  revert s. induction bs as [|b bs IH]; intros s H; simpl; [exact H|].
  apply IH. now apply onClick_not_chat_and_leaderboard.
Qed.

End ViewFacts.

(** C7, as the code has it.  In every state reached from the initial one by
    a sequence of clicks on the members, leaderboard and chat buttons,
    exactly one of the leaderboard, the chat panel and the timer grid is
    shown; the members panel is shown in addition to it whenever the
    members flag is set. *)
Theorem roomView_one_view_besides_members :
  forall bs : list RoomView.Button,
    let s := RoomView.clicks bs RoomView.initial in
    exists v : RoomView.View,
      v <> RoomView.MembersPanel /\
      RoomView.shownBesidesMembers s = [v] /\
      RoomView.shown s =
      (if RoomView.showMembers s then [RoomView.MembersPanel] else []) ++ [v].
Proof.
  intros bs s.
  assert (H : RoomView.showChat s && RoomView.showLeaderboard s = false)
    by (apply clicks_not_chat_and_leaderboard; reflexivity).
  unfold RoomView.shownBesidesMembers, RoomView.shown.
  destruct (RoomView.showChat s), (RoomView.showLeaderboard s),
           (RoomView.showMembers s); try discriminate H; cbn;
    eexists; (split; [|split; reflexivity]); discriminate.
Qed.

(** One click on the members button from the initial state: the members
    panel and the timer grid are both shown. *)
Lemma roomView_members_and_timers_together :
  RoomView.shown (RoomView.clicks [RoomView.MembersButton] RoomView.initial)
  = [RoomView.MembersPanel; RoomView.TimerGrid] /\
  List.length (RoomView.shown (RoomView.clicks [RoomView.MembersButton] RoomView.initial)) <> 1%nat.
Proof. cbn. split; [reflexivity | discriminate]. Qed.

(* ===================================================================== *)
(** ** Sending messages *)
(* ===================================================================== *)

Section ChatFacts.
Import JS Supabase Handler Chat.

(** All that [handleImageUpload] can do with a file, by the answers of the
    object store and of the backend. *)
Lemma uploadAttempt_effects (user : User) (roomId : string) (B : Backend)
      (file : File) (s : State) :
  let filePath := uploadPath user B file in
  let row := mkNewMessage "Sent an image" (session_user_id user)
               (session_user_email user) (Some (storage_getPublicUrl B filePath))
               image roomId in
  let caught (e : JsError) :=
    if instanceofError e then [ToastError (message e)] else [] in
  snd (uploadAttempt user roomId B file s) =
  if negb (startsWith (file_type file) "image/") then
    [ToastError "Please upload an image file"]
  else
    StorageUpload filePath file ::
    match storage_upload B filePath file with
    | Some e => caught e
    | None =>
        GetPublicUrl filePath :: InsertMessage row ::
        match error (messages_insert B row) with
        | Some e => caught e
        | None => if fileInputRef_current B then [ClearFileInput] else []
        end
    end.
Proof.
  cbv [uploadAttempt run handleImageUpload Chat.await Chat.throwIf uploadPath
       when tryCatch tryFinally bind emit set ret return_ throw].
  destruct (startsWith (file_type file) "image/"); cbn [negb]; [|reflexivity].
  destruct (storage_upload B _ file) as [e|].
  - destruct (instanceofError e); reflexivity.
  - destruct (error (messages_insert B _)) as [e|].
    + destruct (instanceofError e); reflexivity.
    + destruct (fileInputRef_current B); reflexivity.
Qed.
End ChatFacts.

(** C8.  For every image-send attempt of [handleImageUpload]: if the upload
    to the object store fails, no message insert is requested; and whenever
    a message insert is requested, the upload has succeeded and the insert
    comes after the upload and after the resolution of the public URL,
    which is the [image_url] of the inserted row. *)
Theorem handleImageUpload_inserts_only_after_upload :
  forall (user : Chat.User) (roomId : string) (B : Chat.Backend) (file : Chat.File)
         (s : Chat.State),
    let filePath := Chat.uploadPath user B file in
    let effects := snd (Chat.uploadAttempt user roomId B file s) in
    (Chat.storage_upload B filePath file <> None ->
     Chat.insertsMessage effects = false) /\
    (forall row,
        In (Chat.InsertMessage row) effects ->
        Chat.storage_upload B filePath file = None /\
        Chat.new_image_url row = Some (Chat.storage_getPublicUrl B filePath) /\
        exists rest,
          effects = [Chat.StorageUpload filePath file; Chat.GetPublicUrl filePath;
                     Chat.InsertMessage row] ++ rest).
Proof.
  intros user roomId B file s filePath effects. subst effects.
  rewrite uploadAttempt_effects. fold filePath.
  destruct (JS.startsWith (Chat.file_type file) "image/"); cbn [negb].
  2:{ split; [reflexivity|]. intros row [H | []]; discriminate H. }
  destruct (Chat.storage_upload B filePath file) as [e|].
  - split.
    + intros _. destruct (Supabase.instanceofError e); reflexivity.
    + intros row Hin. exfalso.
      destruct (Supabase.instanceofError e); cbn in Hin;
        repeat (destruct Hin as [Hin | Hin]; try discriminate Hin); exact Hin.
  - split; [congruence|].
    intros row Hin.
    assert (Hrow : row = Chat.mkNewMessage "Sent an image" (Chat.session_user_id user)
                           (Chat.session_user_email user)
                           (Some (Chat.storage_getPublicUrl B filePath)) Chat.image roomId).
    { destruct (Supabase.error (Chat.messages_insert B _)) as [e|];
        [destruct (Supabase.instanceofError e) | destruct (Chat.fileInputRef_current B)];
        cbn in Hin;
        repeat (destruct Hin as [Hin | Hin]; try discriminate Hin);
        try contradiction; now injection Hin. }
    subst row. split; [reflexivity|]. split; [reflexivity|].
    eexists. reflexivity.
Qed.

Lemma handleImageUpload_inserts_only_after_upload_witness :
  let filePath := Chat.uploadPath Scenario.u1 Scenario.failingStore Scenario.photo in
  let effects :=
    snd (Chat.uploadAttempt Scenario.u1 "r1" Scenario.failingStore Scenario.photo
           (Scenario.typing "")) in
  Chat.storage_upload Scenario.failingStore filePath Scenario.photo <> None /\
  Chat.insertsMessage effects = false.
Proof.
  split; [discriminate|].
  apply (handleImageUpload_inserts_only_after_upload Scenario.u1 "r1"
           Scenario.failingStore Scenario.photo (Scenario.typing "")).
  discriminate.
Defined.

(** C9.  For every text-send attempt whose input is empty or made of white
    space only, [handleSend] requests no message insert and leaves the list
    of messages as it was. *)
Theorem handleSend_blank_input_sends_nothing :
  forall (user : Chat.User) (roomId : string) (B : Chat.Backend) (s : Chat.State),
    Chat.newMessage s = "" \/ JS.allWhiteSpace (Chat.newMessage s) = true ->
    let after := Chat.sendAttempt user roomId B s in
    Chat.insertsMessage (snd after) = false /\
    Chat.messages (fst after) = Chat.messages s.
Proof.
  intros user roomId B s Hblank after. subst after.
  assert (Hws : JS.allWhiteSpace (Chat.newMessage s) = true).
  { destruct Hblank as [H | H]; [now rewrite H | exact H]. }
  cbv [Chat.sendAttempt Handler.run Chat.handleSend Handler.when Handler.bind
       Handler.emit Handler.return_ Handler.ret].
  rewrite truthy_trim, Hws. cbn. split; reflexivity.
Qed.

Lemma handleSend_blank_input_sends_nothing_witness :
  let s := Scenario.typing "   " in
  let after := Chat.sendAttempt Scenario.u1 "r1" Scenario.failingStore s in
  (Chat.newMessage s = "" \/ JS.allWhiteSpace (Chat.newMessage s) = true) /\
  Chat.insertsMessage (snd after) = false /\
  Chat.messages (fst after) = Chat.messages s.
Proof.
  split; [right; reflexivity|].
  apply (handleSend_blank_input_sends_nothing Scenario.u1 "r1" Scenario.failingStore
           (Scenario.typing "   ")).
  right. reflexivity.
Defined.

(* ===================================================================== *)
(** ** Joining a room: every path of the handler *)
(* ===================================================================== *)

Section JoinPaths.
Import JS Supabase Handler RoomList.

(** All that a join attempt can do, by its inputs. *)
Lemma joinAttempt_paths (uid : string) (B : Backend) (s : State) :
  joinAttempt uid B s =
  match selectedRoom s with
  | None => (s, [PreventDefault])
  | Some room =>
    if negb (truthy (trim (joinPassword s))) then
      (s, [PreventDefault; ToastError "Room password is required"])
    else if negb (joinPassword s =? password_hash room)%string then
      (s, [PreventDefault; incorrectPasswordNotice])
    else
      match room_users_maybeSingle B (id room) uid with
      | Failure e => (s, [PreventDefault; SelectMembership (id room) uid] ++ RoomListForms.joinCaught e)
      | Success (Some _) _ =>
          (RoomListForms.joinClosed s, [PreventDefault; SelectMembership (id room) uid; OnRoomSelect (id room)])
      | Success None _ =>
          match room_users_count B (id room) with
          | Failure e =>
              (s, [PreventDefault; SelectMembership (id room) uid;
                   CountMemberships (id room)] ++ RoomListForms.joinCaught e)
          | Success _ counted =>
              if match counted with Some n => n >=? max_users room | None => false end
              then (RoomListForms.joinClosed s, [PreventDefault; SelectMembership (id room) uid;
                               CountMemberships (id room); roomFullNotice])
              else
                match room_users_insert B (id room) uid with
                | Failure e =>
                    (s, [PreventDefault; SelectMembership (id room) uid;
                         CountMemberships (id room); InsertMembership (id room) uid]
                        ++ RoomListForms.joinCaught e)
                | Success _ _ =>
                    (RoomListForms.joinClosed s, [PreventDefault; SelectMembership (id room) uid;
                                CountMemberships (id room); InsertMembership (id room) uid;
                                OnRoomSelect (id room);
                                ToastSuccess "Successfully joined the room!"])
                end
          end
      end
  end.
Proof.
  unfold RoomListForms.joinCaught, RoomListForms.joinClosed.
  cbv [joinAttempt run joinRoom RoomList.await RoomList.throwIf
       when tryCatch bind emit set ret return_ throw].
  destruct (selectedRoom s) as [room|]; [|reflexivity].
  destruct (truthy (trim (joinPassword s))); cbn [negb]; [|reflexivity].
  destruct (joinPassword s =? password_hash room)%string; cbn [negb]; [|reflexivity].
  destruct (room_users_maybeSingle B (id room) uid) as [[row|] n|e]; cbn.
  - reflexivity.
  - destruct (room_users_count B (id room)) as [d [c|]|e]; cbn.
    + destruct (c >=? max_users room); cbn; [reflexivity|].
      destruct (room_users_insert B (id room) uid) as [d' n'|e]; cbn;
        [reflexivity | destruct (instanceofError e); reflexivity].
    + destruct (room_users_insert B (id room) uid) as [d' n'|e]; cbn;
        [reflexivity | destruct (instanceofError e); reflexivity].
    + destruct (instanceofError e); reflexivity.
  - destruct (instanceofError e); reflexivity.
Qed.
End JoinPaths.

(** Splits a goal about [joinAttempt] into the paths of the handler. *)
Ltac join_paths uid B s :=
  rewrite (joinAttempt_paths uid B s);
  unfold RoomListForms.joinCaught, RoomListForms.joinClosed;
  repeat (match goal with
          | |- context [RoomList.selectedRoom s] =>
              destruct (RoomList.selectedRoom s) as [?room|] eqn:?Hsel
          | |- context [JS.truthy (JS.trim ?p)] =>
              destruct (JS.truthy (JS.trim p)) eqn:?Htrim
          | |- context [(RoomList.joinPassword s =? ?q)%string] =>
              destruct (RoomList.joinPassword s =? q)%string eqn:?Hpw
          | |- context [RoomList.room_users_maybeSingle B ?r uid] =>
              destruct (RoomList.room_users_maybeSingle B r uid) as [[?row|] ?n|?e] eqn:?Hmem
          | |- context [RoomList.room_users_count B ?r] =>
              destruct (RoomList.room_users_count B r) as [?d [?c|]|?e] eqn:?Hcnt
          | |- context [?c >=? RoomList.max_users ?r] =>
              destruct (c >=? RoomList.max_users r) eqn:?Hfull
          | |- context [RoomList.room_users_insert B ?r uid] =>
              destruct (RoomList.room_users_insert B r uid) as [?d ?n|?e] eqn:?Hins
          | |- context [Supabase.instanceofError ?e] =>
              destruct (Supabase.instanceofError e) eqn:?Hinst
          end; cbn [negb]).

(** Puts the recorded answers of the backend back into the goal. *)
Ltac use_answers :=
  repeat match goal with
    | H : ?x = Supabase.Success _ _ |- context [?x] => rewrite H
    | H : ?x = Supabase.Failure _ |- context [?x] => rewrite H
    end;
  cbn [Supabase.error Supabase.data Supabase.count].

(** Turns the outcomes of the tests of [joinRoom] into facts. *)
Ltac join_facts :=
  repeat match goal with
    | H : JS.truthy (JS.trim _) = true |- _ => apply truthy_true_iff in H
    | H : (_ =? _)%string = true |- _ => apply String.eqb_eq in H
    | H : (_ =? _)%string = false |- _ => apply String.eqb_neq in H
    | H : (_ >=? _) = false |- _ => rewrite Z.geb_leb in H; apply Z.leb_gt in H
    | H : (_ >=? _) = true |- _ => rewrite Z.geb_leb in H; apply Z.leb_le in H
    end.

(** X1.  [joinRoom] requests a membership insert only when a room is
    selected, the password is not blank and equals the stored one, the
    membership query answered without an error and without a row, and the
    count query answered without an error and either without a count or
    with a count below [max_users]. *)
Theorem joinRoom_inserts_only_when_admitted :
  forall (session_user_id : string) (B : RoomList.Backend) (s : RoomList.State),
    RoomList.insertsMembership (snd (RoomList.joinAttempt session_user_id B s)) = true ->
    exists room,
      RoomList.selectedRoom s = Some room /\
      JS.trim (RoomList.joinPassword s) <> "" /\
      RoomList.joinPassword s = RoomList.password_hash room /\
      Supabase.error (RoomList.room_users_maybeSingle B (RoomList.id room) session_user_id) = None /\
      Supabase.data (RoomList.room_users_maybeSingle B (RoomList.id room) session_user_id) = None /\
      Supabase.error (RoomList.room_users_count B (RoomList.id room)) = None /\
      (Supabase.count (RoomList.room_users_count B (RoomList.id room)) = None \/
       exists c, Supabase.count (RoomList.room_users_count B (RoomList.id room)) = Some c /\
                 c < RoomList.max_users room).
Proof.
  intros uid B s.
  join_paths uid B s; cbn; try discriminate; intros _; join_facts;
    (eexists; repeat split; try eassumption; use_answers; try reflexivity);
    first [ left; reflexivity | right; eexists; split; [reflexivity | lia] ].
Qed.

Lemma joinRoom_inserts_only_when_admitted_witness :
  let s := Scenario.joining Scenario.r1 "abc123" in
  let B := Scenario.countBackend (Some 1) in
  exists room,
    RoomList.selectedRoom s = Some room /\
    JS.trim (RoomList.joinPassword s) <> "" /\
    RoomList.joinPassword s = RoomList.password_hash room /\
    Supabase.error (RoomList.room_users_maybeSingle B (RoomList.id room) "u3") = None /\
    Supabase.data (RoomList.room_users_maybeSingle B (RoomList.id room) "u3") = None /\
    Supabase.error (RoomList.room_users_count B (RoomList.id room)) = None /\
    (Supabase.count (RoomList.room_users_count B (RoomList.id room)) = None \/
     exists c, Supabase.count (RoomList.room_users_count B (RoomList.id room)) = Some c /\
               c < RoomList.max_users room).
Proof.
  apply (joinRoom_inserts_only_when_admitted "u3" (Scenario.countBackend (Some 1))
           (Scenario.joining Scenario.r1 "abc123")).
  reflexivity.
Defined.

(** X2.  Whenever [joinRoom] calls [onRoomSelect], it is with the id of the
    selected room, the password is not blank and equals the stored one, and
    either the membership query found a row or the membership insert was
    requested and answered without an error. *)
Theorem joinRoom_navigates_only_into_selected_room :
  forall (session_user_id : string) (B : RoomList.Backend) (s : RoomList.State)
         (roomId : string),
    In (RoomList.OnRoomSelect roomId) (snd (RoomList.joinAttempt session_user_id B s)) ->
    exists room,
      RoomList.selectedRoom s = Some room /\
      roomId = RoomList.id room /\
      JS.trim (RoomList.joinPassword s) <> "" /\
      RoomList.joinPassword s = RoomList.password_hash room /\
      ((exists row,
           Supabase.data (RoomList.room_users_maybeSingle B (RoomList.id room) session_user_id)
           = Some row) \/
       (In (RoomList.InsertMembership (RoomList.id room) session_user_id)
           (snd (RoomList.joinAttempt session_user_id B s)) /\
        Supabase.error (RoomList.room_users_insert B (RoomList.id room) session_user_id) = None)).
Proof.
  intros uid B s r.
  pose proof (joinAttempt_paths uid B s) as Hpaths. revert Hpaths.
  set (after := RoomList.joinAttempt uid B s). intros Hpaths.
  assert (Hgoal : forall t, snd after = t -> In (RoomList.OnRoomSelect r) t ->
            exists room,
              RoomList.selectedRoom s = Some room /\ r = RoomList.id room /\
              JS.trim (RoomList.joinPassword s) <> "" /\
              RoomList.joinPassword s = RoomList.password_hash room /\
              ((exists row,
                   Supabase.data (RoomList.room_users_maybeSingle B (RoomList.id room) uid)
                   = Some row) \/
               (In (RoomList.InsertMembership (RoomList.id room) uid) t /\
                Supabase.error (RoomList.room_users_insert B (RoomList.id room) uid) = None))).
  2:{ intros H. exact (Hgoal _ eq_refl H). }
  intros t Ht. subst t. rewrite Hpaths. clear Hpaths after.
  unfold RoomListForms.joinCaught, RoomListForms.joinClosed.
  destruct (RoomList.selectedRoom s) as [room|] eqn:Hsel; cbn [snd];
    [|intros [H|[]]; discriminate H].
  destruct (JS.truthy (JS.trim (RoomList.joinPassword s))) eqn:Htrim; cbn [negb snd];
    [|intros [H|[H|[]]]; discriminate H].
  destruct (RoomList.joinPassword s =? RoomList.password_hash room)%string eqn:Hpw;
    cbn [negb snd]; [|intros [H|[H|[]]]; discriminate H].
  join_facts.
  destruct (RoomList.room_users_maybeSingle B (RoomList.id room) uid)
    as [[row|] n|e] eqn:Hmem; cbn [snd Supabase.data].
  - intros [H|[H|[H|[]]]]; try discriminate H. injection H as <-.
    exists room. repeat split; try assumption. left. use_answers. now exists row.
  - destruct (RoomList.room_users_count B (RoomList.id room)) as [d cnt|e] eqn:Hcnt;
      cbn [snd].
    + destruct (match cnt with Some n0 => n0 >=? RoomList.max_users room | None => false end);
        cbn [snd]; [intros [H|[H|[H|[H|[]]]]]; discriminate H|].
      destruct (RoomList.room_users_insert B (RoomList.id room) uid) as [d' n'|e] eqn:Hins;
        cbn [snd Supabase.error].
      * intros [H|[H|[H|[H|[H|[H|[]]]]]]]; try discriminate H. injection H as <-.
        exists room. repeat split; try assumption. right. use_answers.
        split; [cbn; tauto | reflexivity].
      * destruct (Supabase.instanceofError e); cbn;
          intros H; repeat (destruct H as [H|H]; try discriminate H); contradiction.
    + destruct (Supabase.instanceofError e); cbn;
        intros H; repeat (destruct H as [H|H]; try discriminate H); contradiction.
  - destruct (Supabase.instanceofError e); cbn;
      intros H; repeat (destruct H as [H|H]; try discriminate H); contradiction.
Qed.

Lemma joinRoom_navigates_only_into_selected_room_witness :
  let s := Scenario.joining Scenario.r1 "abc123" in
  let B := Scenario.memberBackend in
  exists room,
    RoomList.selectedRoom s = Some room /\
    "r1" = RoomList.id room /\
    JS.trim (RoomList.joinPassword s) <> "" /\
    RoomList.joinPassword s = RoomList.password_hash room /\
    ((exists row,
         Supabase.data (RoomList.room_users_maybeSingle B (RoomList.id room) "u3") = Some row) \/
     (In (RoomList.InsertMembership (RoomList.id room) "u3")
         (snd (RoomList.joinAttempt "u3" B s)) /\
      Supabase.error (RoomList.room_users_insert B (RoomList.id room) "u3") = None)).
Proof.
  apply (joinRoom_navigates_only_into_selected_room "u3" Scenario.memberBackend
           (Scenario.joining Scenario.r1 "abc123") "r1").
  vm_compute. auto.
Defined.

(** X3.  [joinRoom] changes the state of the directory in one way only: it
    closes the join modal and empties the password field together, leaving
    the selected room and every other cell as they were; it does so
    whenever it calls [onRoomSelect], and otherwise it either does so or
    leaves the state untouched. *)
Theorem joinRoom_closes_modal_and_clears_password_together :
  forall (session_user_id : string) (B : RoomList.Backend) (s : RoomList.State),
    let after := RoomList.joinAttempt session_user_id B s in
    (fst after = s \/ fst after = RoomListForms.joinClosed s) /\
    (RoomList.navigates (snd after) = true -> fst after = RoomListForms.joinClosed s) /\
    RoomList.selectedRoom (fst after) = RoomList.selectedRoom s /\
    RoomList.rooms (fst after) = RoomList.rooms s /\
    RoomList.filteredRooms (fst after) = RoomList.filteredRooms s.
Proof.
  intros uid B s after. subst after.
  join_paths uid B s; cbn; repeat split; auto; discriminate.
Qed.

(** X4.  A join attempt with a password that is not blank and equals the
    stored one, by a user without a membership row, on a room whose
    returned count is below [max_users], when the insert succeeds: the
    membership is inserted once after the two queries, the user is taken
    into the room, the success notice follows, and the modal is closed. *)
Theorem joinRoom_free_room_joins :
  forall (session_user_id : string) (B : RoomList.Backend) (s : RoomList.State)
         (room : RoomList.Room) (c : Z),
    RoomList.selectedRoom s = Some room ->
    JS.trim (RoomList.joinPassword s) <> "" ->
    RoomList.joinPassword s = RoomList.password_hash room ->
    Supabase.error (RoomList.room_users_maybeSingle B (RoomList.id room) session_user_id) = None ->
    Supabase.data (RoomList.room_users_maybeSingle B (RoomList.id room) session_user_id) = None ->
    Supabase.error (RoomList.room_users_count B (RoomList.id room)) = None ->
    Supabase.count (RoomList.room_users_count B (RoomList.id room)) = Some c ->
    c < RoomList.max_users room ->
    Supabase.error (RoomList.room_users_insert B (RoomList.id room) session_user_id) = None ->
    RoomList.joinAttempt session_user_id B s =
    (RoomListForms.joinClosed s,
     [RoomList.PreventDefault;
      RoomList.SelectMembership (RoomList.id room) session_user_id;
      RoomList.CountMemberships (RoomList.id room);
      RoomList.InsertMembership (RoomList.id room) session_user_id;
      RoomList.OnRoomSelect (RoomList.id room);
      RoomList.ToastSuccess "Successfully joined the room!"]).
Proof.
  intros uid B s room c Hsel Hne Hpw He Hd Hce Hc Hfree Hie.
  assert (Hge : (c >=? RoomList.max_users room) = false)
    by (rewrite Z.geb_leb; apply Z.leb_gt; lia).
  handler. decide_tests. rewrite Hge. decide_tests. reflexivity.
Qed.

Lemma joinRoom_free_room_joins_witness :
  RoomList.joinAttempt "u3" (Scenario.countBackend (Some 1))
    (Scenario.joining Scenario.r1 "abc123") =
  (RoomListForms.joinClosed (Scenario.joining Scenario.r1 "abc123"),
   [RoomList.PreventDefault; RoomList.SelectMembership "r1" "u3";
    RoomList.CountMemberships "r1"; RoomList.InsertMembership "r1" "u3";
    RoomList.OnRoomSelect "r1"; RoomList.ToastSuccess "Successfully joined the room!"]).
Proof.
  apply (joinRoom_free_room_joins "u3" (Scenario.countBackend (Some 1))
           (Scenario.joining Scenario.r1 "abc123") Scenario.r1 1);
    try reflexivity; try discriminate.
Defined.

(** X5.  When a backend request of [joinRoom] fails, the handler stops at
    that request: nothing is requested afterwards, [onRoomSelect] is not
    called, the state is left untouched, and the message of the error is
    shown only if the error is an instance of [Error]; any other error
    object ends the attempt without a notice. *)
Theorem joinRoom_failed_request_stops_the_attempt :
  forall (session_user_id : string) (B : RoomList.Backend) (s : RoomList.State)
         (room : RoomList.Room),
    RoomList.selectedRoom s = Some room ->
    JS.trim (RoomList.joinPassword s) <> "" ->
    RoomList.joinPassword s = RoomList.password_hash room ->
    let membership := RoomList.room_users_maybeSingle B (RoomList.id room) session_user_id in
    let counted := RoomList.room_users_count B (RoomList.id room) in
    let joined := RoomList.room_users_insert B (RoomList.id room) session_user_id in
    let asked := [RoomList.PreventDefault;
                  RoomList.SelectMembership (RoomList.id room) session_user_id] in
    (forall e, membership = Supabase.Failure e ->
       RoomList.joinAttempt session_user_id B s = (s, asked ++ RoomListForms.joinCaught e)) /\
    (forall n e, membership = Supabase.Success None n -> counted = Supabase.Failure e ->
       RoomList.joinAttempt session_user_id B s =
       (s, asked ++ [RoomList.CountMemberships (RoomList.id room)]
             ++ RoomListForms.joinCaught e)) /\
    (forall n e, membership = Supabase.Success None n ->
       Supabase.error counted = None ->
       (forall c, Supabase.count counted = Some c -> c < RoomList.max_users room) ->
       joined = Supabase.Failure e ->
       RoomList.joinAttempt session_user_id B s =
       (s, asked ++ [RoomList.CountMemberships (RoomList.id room);
                     RoomList.InsertMembership (RoomList.id room) session_user_id]
             ++ RoomListForms.joinCaught e)).
Proof.
  intros uid B s room Hsel Hne Hpw membership counted joined asked.
  subst membership counted joined asked.
  apply truthy_true_iff in Hne. apply String.eqb_eq in Hpw.
  rewrite (joinAttempt_paths uid B s), Hsel, Hne, Hpw. cbn [negb].
  repeat split.
  - intros e ->. reflexivity.
  - intros n e -> ->. reflexivity.
  - intros n e -> Hce Hc ->.
    destruct (RoomList.room_users_count B (RoomList.id room)) as [d [c|]|e'];
      try discriminate Hce; [|reflexivity].
    specialize (Hc c eq_refl).
    assert (Hge : (c >=? RoomList.max_users room) = false)
      by (rewrite Z.geb_leb; apply Z.leb_gt; lia).
    rewrite Hge. reflexivity.
Qed.

Lemma joinRoom_failed_request_stops_the_attempt_witness :
  RoomList.joinAttempt "u3" Cases.refusingBackend (Scenario.joining Scenario.r1 "abc123")
  = (Scenario.joining Scenario.r1 "abc123",
     [RoomList.PreventDefault; RoomList.SelectMembership "r1" "u3"]).
Proof.
  assert (Hne : JS.trim (RoomList.joinPassword (Scenario.joining Scenario.r1 "abc123")) <> "")
    by discriminate.
  destruct (joinRoom_failed_request_stops_the_attempt "u3" Cases.refusingBackend
              (Scenario.joining Scenario.r1 "abc123") Scenario.r1 eq_refl Hne eq_refl)
    as [H _].
  exact (H _ eq_refl).
Defined.

(* ===================================================================== *)
(** ** Sorting again and filtering *)
(* ===================================================================== *)

Section SortAgain.
Import JS.
Context {A : Type} (comparefn : A -> A -> Z).
Hypothesis comparefn_total : forall a b, 0 < comparefn a b -> comparefn b a <= 0.
Hypothesis comparefn_trans :
  forall a b c, inOrder comparefn a b -> inOrder comparefn b c -> inOrder comparefn a c.

(** An element that may stand before all of a list is inserted in front. *)
Lemma insertSorted_front (x : A) (l : list A) :
  Forall (inOrder comparefn x) l -> insertSorted comparefn x l = x :: l.
Proof.
  intros H. destruct l as [|y l]; [reflexivity|].
  inversion H as [|? ? Hxy _]; subst. simpl.
  apply Z.leb_le in Hxy. now rewrite Hxy.
Qed.

(** Sorting a sorted list gives it back. *)
Lemma sort_of_sorted (l : list A) :
  StronglySorted (inOrder comparefn) l -> sort comparefn l = l.
Proof.
  induction 1 as [|x l Hl IH Hx]; simpl; [reflexivity|].
  fold (sort comparefn l). rewrite IH. now apply insertSorted_front.
Qed.

Lemma sort_idempotent (l : list A) :
  sort comparefn (sort comparefn l) = sort comparefn l.
Proof. apply sort_of_sorted. now apply sort_StronglySorted. Qed.

Lemma filter_insertSorted (f : A -> bool) (x : A) (l : list A) :
  StronglySorted (inOrder comparefn) l ->
  filter f (insertSorted comparefn x l) =
  if f x then insertSorted comparefn x (filter f l) else filter f l.
Proof.
  induction 1 as [|y l Hl IH Hy]; simpl.
  - destruct (f x); reflexivity.
  - destruct (Z.leb_spec (comparefn x y) 0) as [Hxy|Hxy]; simpl.
    + destruct (f x) eqn:Hfx; [|reflexivity].
      symmetry. apply insertSorted_front.
      assert (Hall : Forall (inOrder comparefn x) (y :: l)).
      { constructor; [exact Hxy|].
        eapply Forall_impl; [|exact Hy]. intros z. now apply comparefn_trans. }
      rewrite Forall_forall in Hall. apply Forall_forall.
      intros z Hz. apply Hall.
      change (In z (filter f (y :: l))) in Hz.
      apply filter_In in Hz. tauto.
    + rewrite IH. destruct (f y) eqn:Hfy, (f x) eqn:Hfx; simpl; try reflexivity.
      destruct (Z.leb_spec (comparefn x y) 0); [lia | reflexivity].
Qed.

(** Filtering and sorting can be done in either order. *)
Lemma filter_sort (f : A -> bool) (l : list A) :
  sort comparefn (filter f l) = filter f (sort comparefn l).
Proof.
  induction l as [|x l IH]; simpl; [reflexivity|].
  fold (sort comparefn l).
  rewrite filter_insertSorted by now apply sort_StronglySorted.
  destruct (f x); simpl; [|exact IH].
  fold (sort comparefn (filter f l)). now rewrite IH.
Qed.
End SortAgain.

Section SortRoomsAgain.
Import JS RoomList.
Variable Date_getTime : string -> number.
Variable session_user_id : string.

(** Sorting the sorted directory changes nothing, when the timestamps
    parse. *)
Lemma sortRooms_idempotent (l : list Room) :
  Forall (parses Date_getTime) l ->
  sortRooms Date_getTime session_user_id (sortRooms Date_getTime session_user_id l)
  = sortRooms Date_getTime session_user_id l.
Proof.
  intros Hl.
  rewrite (sortRooms_parsed _ _ (sortRooms Date_getTime session_user_id l))
    by now apply sortRooms_parses.
  rewrite (sortRooms_parsed _ _ l) by exact Hl.
  apply sort_idempotent; [apply compareInstants_total | apply compareInstants_trans].
Qed.

(** Filtering the sorted directory and sorting again gives the filtered
    list, when the timestamps parse. *)
Lemma sortRooms_filter (f : Room -> bool) (l : list Room) :
  Forall (parses Date_getTime) l ->
  sortRooms Date_getTime session_user_id
    (filter f (sortRooms Date_getTime session_user_id l))
  = filter f (sortRooms Date_getTime session_user_id l).
Proof.
  intros Hl.
  assert (Hs : Forall (parses Date_getTime) (sortRooms Date_getTime session_user_id l))
    by now apply sortRooms_parses.
  assert (Hf : Forall (parses Date_getTime)
                 (filter f (sortRooms Date_getTime session_user_id l))).
  { rewrite Forall_forall in *. intros r Hr. apply filter_In in Hr. apply Hs. tauto. }
  rewrite (sortRooms_parsed _ _ _ Hf).
  rewrite (filter_sort _ (compareInstants_total Date_getTime session_user_id)
             (compareInstants_trans Date_getTime session_user_id)).
  rewrite <- (sortRooms_parsed _ _ _ Hs).
  now rewrite sortRooms_idempotent.
Qed.
End SortRoomsAgain.

(** X6.  Sorting the directory twice is the same as sorting it once, when
    the creation timestamps of the rooms parse: the order in which
    [fetchRooms] stores such rooms is the order the search effect shows
    for a blank query, so that after a fetch followed by the search effect
    with a blank query the rooms shown are the rooms stored. *)
Theorem fetchRooms_then_blank_search_shows_stored_rooms :
  forall (Date_getTime : string -> JS.number) (session_user_id : string)
         (B : RoomList.Backend) (s : RoomList.State),
    JS.trim (RoomList.searchQuery s) = "" ->
    Supabase.error (RoomList.rooms_select B) = None ->
    (forall rows r, Supabase.data (RoomList.rooms_select B) = Some rows -> In r rows ->
                    Date_getTime (RoomList.created_at r) <> None) ->
    let fetched :=
      fst (Handler.run (RoomList.fetchRooms Date_getTime session_user_id B) s) in
    let shown := RoomList.searchEffect Date_getTime session_user_id fetched in
    RoomList.filteredRooms shown = RoomList.rooms fetched /\
    shown = fetched.
Proof.
  intros getTime uid B s Hq He Hparse fetched shown.
  set (rows := match Supabase.data (RoomList.rooms_select B) with
               | Some d => d | None => [] end).
  assert (Hall : Forall (RoomList.parses getTime) rows).
  { apply Forall_forall. subst rows.
    destruct (Supabase.data (RoomList.rooms_select B)) as [d|]; [|intros r []].
    intros r Hr. exact (Hparse d r eq_refl Hr). }
  assert (Hf : fetched =
               RoomList.setFilteredRooms (RoomList.sortRooms getTime uid rows)
                 (RoomList.setRooms (RoomList.sortRooms getTime uid rows) s)).
  { subst fetched rows.
    cbv [Handler.run RoomList.fetchRooms RoomList.await Handler.when Handler.bind
         Handler.emit Handler.set Handler.ret Handler.return_].
    rewrite He. reflexivity. }
  assert (Hs : shown = fetched).
  { subst shown. rewrite Hf. unfold RoomList.searchEffect. cbn.
    rewrite (searchResult_blank_query getTime uid) by exact Hq.
    rewrite (sortRooms_idempotent getTime uid rows Hall).
    reflexivity. }
  split; [|exact Hs]. rewrite Hs, Hf. reflexivity.
Qed.

Lemma fetchRooms_then_blank_search_shows_stored_rooms_witness :
  let s := Scenario.joining Scenario.r1 "" in
  let fetched :=
    fst (Handler.run (RoomList.fetchRooms Cases.clock "u3" Cases.roomsBackend) s) in
  let shown := RoomList.searchEffect Cases.clock "u3" fetched in
  RoomList.rooms fetched = [Cases.mine; Cases.march1; Cases.january2; Cases.january1] /\
  RoomList.filteredRooms shown = RoomList.rooms fetched /\ shown = fetched.
Proof.
  split; [reflexivity|].
  apply (fetchRooms_then_blank_search_shows_stored_rooms Cases.clock "u3"
           Cases.roomsBackend (Scenario.joining Scenario.r1 ""));
    [reflexivity | reflexivity |].
  intros rows r Hrows Hr. injection Hrows as <-. simpl in Hr.
  repeat (destruct Hr as [<-|Hr]; [discriminate|]). contradiction.
Defined.

(** X7.  Searching keeps the order of the directory, when the creation
    timestamps of the rooms parse: on such rooms in the order in which
    [fetchRooms] stores them, the search effect shows, for a query that is
    not blank, the rooms whose id or name contains the lower-cased query,
    in the order they have in the full list, and for a blank query the
    full list. *)
Theorem searchResult_keeps_directory_order :
  forall (Date_getTime : string -> JS.number) (session_user_id searchQuery : string)
         (rows : list RoomList.Room),
    (forall r, In r rows -> Date_getTime (RoomList.created_at r) <> None) ->
    let rooms := RoomList.sortRooms Date_getTime session_user_id rows in
    RoomList.searchResult Date_getTime session_user_id searchQuery rooms =
    if (JS.trim searchQuery =? "")%string then rooms
    else filter (fun room =>
                   JS.includes (JS.toLowerCase (RoomList.id room)) (JS.toLowerCase searchQuery)
                   || JS.includes (JS.toLowerCase (RoomList.name room))
                                  (JS.toLowerCase searchQuery))
                rooms.
Proof.
  intros getTime uid q rows Hparse rooms. subst rooms.
  assert (Hall : Forall (RoomList.parses getTime) rows)
    by (apply Forall_forall; exact Hparse).
  unfold RoomList.searchResult.
  destruct (JS.trim q =? "")%string.
  - now apply sortRooms_idempotent.
  - now apply sortRooms_filter.
Qed.

Lemma searchResult_keeps_directory_order_witness :
  let rooms :=
    RoomList.sortRooms Cases.clock "u3"
      [Cases.january1; Cases.january2; Cases.mine; Cases.march1] in
  rooms = [Cases.mine; Cases.march1; Cases.january2; Cases.january1] /\
  RoomList.searchResult Cases.clock "u3" "JAN" rooms = [Cases.january2; Cases.january1].
Proof.
  split; [reflexivity|].
  rewrite (searchResult_keeps_directory_order Cases.clock "u3" "JAN"
             [Cases.january1; Cases.january2; Cases.mine; Cases.march1]).
  - reflexivity.
  - intros r Hr. simpl in Hr.
    repeat (destruct Hr as [<-|Hr]; [discriminate|]). contradiction.
Defined.

(** X8.  Whatever the query, the rooms the search effect shows are rooms of
    the directory, none shown more often than it is listed; and when the
    creation timestamps of the rooms parse, they are shown in the order of
    the directory: rooms of the user first, and newest first among the
    rooms of the user and among the others. *)
Theorem searchResult_is_sorted_part_of_rooms :
  forall (Date_getTime : string -> JS.number) (session_user_id searchQuery : string)
         (rooms : list RoomList.Room),
    let result := RoomList.searchResult Date_getTime session_user_id searchQuery rooms in
    (exists hidden, Permutation rooms (result ++ hidden)) /\
    ((forall r, In r rooms -> Date_getTime (RoomList.created_at r) <> None) ->
     forall i j a b,
       (i < j)%nat -> nth_error result i = Some a -> nth_error result j = Some b ->
       (RoomList.ownedBy session_user_id b = true ->
        RoomList.ownedBy session_user_id a = true) /\
       (RoomList.ownedBy session_user_id a = RoomList.ownedBy session_user_id b ->
        exists ta tb,
          Date_getTime (RoomList.created_at a) = Some ta /\
          Date_getTime (RoomList.created_at b) = Some tb /\
          tb <= ta)).
Proof.
  intros getTime uid q rooms result.
  assert (Hform : exists kept hidden,
             result = RoomList.sortRooms getTime uid kept /\
             Permutation rooms (kept ++ hidden)).
  { subst result. unfold RoomList.searchResult.
    destruct (JS.trim q =? "")%string.
    - exists rooms, []. split; [reflexivity | now rewrite app_nil_r].
    - set (f := fun room : RoomList.Room =>
                  JS.includes (JS.toLowerCase (RoomList.id room)) (JS.toLowerCase q)
                  || JS.includes (JS.toLowerCase (RoomList.name room)) (JS.toLowerCase q)).
      exists (filter f rooms), (filter (fun r => negb (f r)) rooms).
      split; [reflexivity|].
      clearbody f. induction rooms as [|r l IH]; simpl; [constructor|].
      destruct (f r); simpl.
      + now constructor.
      + apply Permutation_cons_app. exact IH. }
  destruct Hform as [kept [hidden [Hres Hperm]]]. split.
  - exists hidden. rewrite Hperm, Hres.
    apply Permutation_app_tail, sortRooms_Permutation.
  - intros Hparse. rewrite Hres.
    apply (sortRooms_inDirectoryOrder getTime uid kept).
    apply Forall_forall. intros r Hr. apply Hparse.
    apply (Permutation_in r (Permutation_sym Hperm)). apply in_or_app. now left.
Qed.

Lemma searchResult_is_sorted_part_of_rooms_witness :
  let rooms := [Cases.january1; Cases.january2; Cases.mine; Cases.march1] in
  let result := RoomList.searchResult Cases.clock "u3" "1" rooms in
  result = [Cases.march1; Cases.january1] /\
  RoomList.inDirectoryOrder Cases.clock "u3" result.
Proof.
  split; [reflexivity|].
  destruct (searchResult_is_sorted_part_of_rooms Cases.clock "u3" "1"
              [Cases.january1; Cases.january2; Cases.mine; Cases.march1]) as [_ H].
  unfold RoomList.inDirectoryOrder, RoomList.notOlder. apply H.
  intros r Hr. simpl in Hr.
  repeat (destruct Hr as [<-|Hr]; [discriminate|]). contradiction.
Defined.

(** X9.  When the fetch of the rooms fails, [fetchRooms] shows the failure
    notice and leaves the rooms and the filtered rooms as they were; when
    it succeeds it stores the rows received, sorted by the sort of the
    directory, as the rooms and as the filtered rooms alike (no rows when
    the data is [null]), whatever the search query is: the list stored is
    a permutation of the rows and, when their creation timestamps parse,
    has the rooms of the user first and the newest first on either
    side. *)
Theorem fetchRooms_stores_or_keeps :
  forall (Date_getTime : string -> JS.number) (session_user_id : string)
         (B : RoomList.Backend) (s : RoomList.State),
    let after := Handler.run (RoomList.fetchRooms Date_getTime session_user_id B) s in
    match RoomList.rooms_select B with
    | Supabase.Failure _ =>
        after = (s, [RoomList.SelectRooms; RoomList.ToastError "Failed to fetch rooms"])
    | Supabase.Success received _ =>
        let rows := match received with Some rows => rows | None => [] end in
        snd after = [RoomList.SelectRooms] /\
        RoomList.rooms (fst after) = RoomList.sortRooms Date_getTime session_user_id rows /\
        RoomList.filteredRooms (fst after) = RoomList.rooms (fst after) /\
        Permutation rows (RoomList.rooms (fst after)) /\
        ((forall r, In r rows -> Date_getTime (RoomList.created_at r) <> None) ->
         RoomList.inDirectoryOrder Date_getTime session_user_id
           (RoomList.rooms (fst after))) /\
        RoomList.searchQuery (fst after) = RoomList.searchQuery s
    end.
Proof.
  intros getTime uid B s after. subst after.
  cbv [Handler.run RoomList.fetchRooms RoomList.await Handler.when Handler.bind
       Handler.emit Handler.set Handler.ret Handler.return_].
  destruct (RoomList.rooms_select B) as [received n|e];
    cbn [fst snd Supabase.error Supabase.data RoomList.rooms RoomList.filteredRooms
         RoomList.searchQuery RoomList.setRooms RoomList.setFilteredRooms app];
    [|reflexivity].
  split; [reflexivity|]. split; [reflexivity|]. split; [reflexivity|].
  split; [apply sortRooms_Permutation|]. split; [|reflexivity].
  intros Hparse. apply sortRooms_inDirectoryOrder.
  apply Forall_forall. exact Hparse.
Qed.

Lemma fetchRooms_stores_or_keeps_witness :
  let after :=
    Handler.run (RoomList.fetchRooms Cases.clock "u3" Cases.roomsBackend)
      (Scenario.joining Scenario.r1 "") in
  RoomList.rooms (fst after) = [Cases.mine; Cases.march1; Cases.january2; Cases.january1] /\
  RoomList.inDirectoryOrder Cases.clock "u3" (RoomList.rooms (fst after)).
Proof.
  split; [reflexivity|].
  destruct (fetchRooms_stores_or_keeps Cases.clock "u3" Cases.roomsBackend
              (Scenario.joining Scenario.r1 "")) as [_ [_ [_ [_ [H _]]]]].
  apply H. intros r Hr. simpl in Hr.
  repeat (destruct Hr as [<-|Hr]; [discriminate|]). contradiction.
Defined.

(* ===================================================================== *)
(** ** Creating a room *)
(* ===================================================================== *)

Section CreatePaths.
Import JS Supabase Handler RoomList RoomListForms.

(** All that a create attempt can do, by its inputs. *)
Lemma createAttempt_paths (B : RoomListForms.Backend) (s : State) :
  createAttempt B s =
  if negb (truthy (trim (newRoomPassword s))) then
    (s, [RoomListForms.PreventDefault;
         RoomListForms.ToastError "Room password is required"])
  else
    match auth_getUser B with
    | None =>
        (s, [RoomListForms.PreventDefault; AuthGetUser;
             RoomListForms.ToastError "User not found"])
    | Some user =>
        let row := mkNewRoom (newRoomName s) (newRoomPassword s) (maxUsers s)
                     (auth_id user) (auth_email user) in
        match rooms_insert B row with
        | inl e =>
            (s, [RoomListForms.PreventDefault; AuthGetUser; InsertRoom row]
                ++ createCaught e)
        | inr created =>
            (createReset s,
             [RoomListForms.PreventDefault; AuthGetUser; InsertRoom row;
              RoomListForms.OnRoomSelect (id created);
              RoomListForms.ToastSuccess "Room created successfully!"])
        end
    end.
Proof.
  unfold createCaught, createReset.
  cbv [createAttempt run createRoom RoomListForms.await
       when tryCatch bind emit set ret return_ throw].
  destruct (truthy (trim (newRoomPassword s))); cbn [negb]; [|reflexivity].
  destruct (auth_getUser B) as [user|]; cbn; [|reflexivity].
  destruct (rooms_insert B _) as [e|created]; cbn; [|reflexivity].
  destruct (instanceofError e); reflexivity.
Qed.
End CreatePaths.

(** X10.  Every room [createRoom] asks the backend to insert has a password
    that is not blank, carries the name, the password and the capacity of
    the form as they are, and is owned by the signed-in user. *)
Theorem createRoom_inserts_owned_rooms_with_password :
  forall (B : RoomListForms.Backend) (s : RoomList.State) (row : RoomListForms.NewRoom),
    In (RoomListForms.InsertRoom row) (snd (RoomListForms.createAttempt B s)) ->
    JS.trim (RoomListForms.new_password_hash row) <> "" /\
    exists user,
      RoomListForms.auth_getUser B = Some user /\
      row = RoomListForms.mkNewRoom (RoomList.newRoomName s) (RoomList.newRoomPassword s)
              (RoomList.maxUsers s) (RoomListForms.auth_id user)
              (RoomListForms.auth_email user).
Proof.
  intros B s row. rewrite createAttempt_paths.
  destruct (JS.truthy (JS.trim (RoomList.newRoomPassword s))) eqn:Hpw; cbn [negb snd].
  2:{ intros [H|[H|[]]]; discriminate H. }
  apply truthy_true_iff in Hpw.
  destruct (RoomListForms.auth_getUser B) as [user|]; cbn [snd].
  2:{ intros [H|[H|[H|[]]]]; discriminate H. }
  assert (Hrow : RoomListForms.InsertRoom
                   (RoomListForms.mkNewRoom (RoomList.newRoomName s)
                      (RoomList.newRoomPassword s) (RoomList.maxUsers s)
                      (RoomListForms.auth_id user) (RoomListForms.auth_email user))
                 = RoomListForms.InsertRoom row ->
                 JS.trim (RoomListForms.new_password_hash row) <> "" /\
                 exists user0,
                   Some user = Some user0 /\
                   row = RoomListForms.mkNewRoom (RoomList.newRoomName s)
                           (RoomList.newRoomPassword s) (RoomList.maxUsers s)
                           (RoomListForms.auth_id user0) (RoomListForms.auth_email user0)).
  { intros H. injection H as <-. split; [exact Hpw|]. now exists user. }
  cbv zeta.
  destruct (RoomListForms.rooms_insert B _) as [e|created]; cbn [snd].
  - unfold RoomListForms.createCaught.
    destruct (Supabase.instanceofError e); cbn;
      intros H; repeat (destruct H as [H|H]; try discriminate H);
      try contradiction; auto.
  - cbn. intros H; repeat (destruct H as [H|H]; try discriminate H);
      try contradiction; auto.
Qed.

Lemma createRoom_inserts_owned_rooms_with_password_witness :
  let row := RoomListForms.mkNewRoom "Study" "abc123" 5 "user-a" (Some "a@example.com") in
  JS.trim (RoomListForms.new_password_hash row) <> "" /\
  exists user,
    RoomListForms.auth_getUser Cases.storing = Some user /\
    row = RoomListForms.mkNewRoom (RoomList.newRoomName Cases.studyForm)
            (RoomList.newRoomPassword Cases.studyForm) (RoomList.maxUsers Cases.studyForm)
            (RoomListForms.auth_id user) (RoomListForms.auth_email user).
Proof.
  apply (createRoom_inserts_owned_rooms_with_password Cases.storing Cases.studyForm).
  vm_compute. auto.
Defined.

(** X11.  [createRoom] calls [onRoomSelect] only with the id of the row the
    backend answered to its insert, and then the create modal is closed and
    the form is reset to an empty name, an empty password and a capacity
    of 10; in every other case the state, and with it the form as typed,
    is left untouched. *)
Theorem createRoom_enters_created_room_or_keeps_form :
  forall (B : RoomListForms.Backend) (s : RoomList.State),
    let after := RoomListForms.createAttempt B s in
    (forall roomId,
        In (RoomListForms.OnRoomSelect roomId) (snd after) ->
        fst after = RoomListForms.createReset s /\
        exists row created,
          In (RoomListForms.InsertRoom row) (snd after) /\
          RoomListForms.rooms_insert B row = inr created /\
          roomId = RoomList.id created) /\
    (existsb RoomListForms.isNavigation (snd after) = false -> fst after = s).
Proof.
  intros B s after. subst after. rewrite createAttempt_paths.
  destruct (JS.truthy (JS.trim (RoomList.newRoomPassword s))); cbn [negb snd fst].
  2:{ split; [intros r [H|[H|[]]]; discriminate H | reflexivity]. }
  destruct (RoomListForms.auth_getUser B) as [user|]; cbn [snd fst].
  2:{ split; [intros r [H|[H|[H|[]]]]; discriminate H | reflexivity]. }
  cbv zeta.
  destruct (RoomListForms.rooms_insert B _) as [e|created] eqn:Hins; cbn [snd fst].
  - unfold RoomListForms.createCaught. split; [|reflexivity].
    intros r H. exfalso.
    destruct (Supabase.instanceofError e); cbn in H;
      repeat (destruct H as [H|H]; try discriminate H); exact H.
  - split; [|discriminate].
    intros r H. cbn in H.
    repeat (destruct H as [H|H]; try discriminate H); try contradiction.
    injection H as <-. split; [reflexivity|].
    eexists _, created. split; [|split; [exact Hins | reflexivity]].
    cbn. tauto.
Qed.

(** X12.  With a password that is not blank and a signed-in user, when the
    insert succeeds, [createRoom] asks for the user, inserts one room owned
    by that user, closes the modal and resets the form, takes the user
    into the created room and then shows the success notice; the name and
    the capacity of the form are not tested. *)
Theorem createRoom_creates_and_enters :
  forall (B : RoomListForms.Backend) (s : RoomList.State)
         (user : RoomListForms.AuthUser) (created : RoomList.Room),
    JS.trim (RoomList.newRoomPassword s) <> "" ->
    RoomListForms.auth_getUser B = Some user ->
    let row := RoomListForms.mkNewRoom (RoomList.newRoomName s)
                 (RoomList.newRoomPassword s) (RoomList.maxUsers s)
                 (RoomListForms.auth_id user) (RoomListForms.auth_email user) in
    RoomListForms.rooms_insert B row = inr created ->
    RoomListForms.createAttempt B s =
    (RoomListForms.createReset s,
     [RoomListForms.PreventDefault; RoomListForms.AuthGetUser;
      RoomListForms.InsertRoom row;
      RoomListForms.OnRoomSelect (RoomList.id created);
      RoomListForms.ToastSuccess "Room created successfully!"]).
Proof.
  intros B s user created Hpw Huser row Hins.
  rewrite createAttempt_paths.
  apply truthy_true_iff in Hpw. rewrite Hpw, Huser. cbn [negb]. cbv zeta.
  fold row. rewrite Hins. reflexivity.
Qed.

Lemma createRoom_creates_and_enters_witness :
  RoomListForms.createAttempt Cases.storing Cases.studyForm =
  (RoomListForms.createReset Cases.studyForm,
   [RoomListForms.PreventDefault; RoomListForms.AuthGetUser;
    RoomListForms.InsertRoom
      (RoomListForms.mkNewRoom "Study" "abc123" 5 "user-a" (Some "a@example.com"));
    RoomListForms.OnRoomSelect "r9";
    RoomListForms.ToastSuccess "Room created successfully!"]).
Proof.
  apply (createRoom_creates_and_enters Cases.storing Cases.studyForm Cases.userA
           (RoomList.mkRoom "r9" "Study" "a@example.com" "2024-03-01T09:00:00Z"
              "abc123" 5 "user-a"));
    [discriminate | reflexivity | reflexivity].
Defined.

(** X13.  After a click on the Join Room button of a room and the typing of
    a password, the join modal shows, and a submit can take the user only
    into that room and can insert a membership only for that room and the
    signed-in user; after a click on Cancel the modal is gone, the password
    field is empty, and a submit does nothing. *)
Theorem joinModal_targets_clicked_room :
  forall (session_user_id : string) (B : RoomList.Backend) (s : RoomList.State)
         (room : RoomList.Room) (password : string),
    let typed := RoomList.setJoinPassword password (RoomListForms.openJoinModal room s) in
    let cancelled := RoomListForms.cancelJoin typed in
    RoomListForms.joinModalShown typed = true /\
    (forall ev, In ev (snd (RoomList.joinAttempt session_user_id B typed)) ->
                match ev with
                | RoomList.OnRoomSelect roomId => roomId = RoomList.id room
                | RoomList.InsertMembership roomId user =>
                    roomId = RoomList.id room /\ user = session_user_id
                | _ => True
                end) /\
    RoomListForms.joinModalShown cancelled = false /\
    RoomList.joinPassword cancelled = "" /\
    RoomList.joinAttempt session_user_id B cancelled = (cancelled, [RoomList.PreventDefault]).
Proof.
  intros uid B s room p typed cancelled.
  split; [reflexivity|]. split; [|repeat split].
  intros ev. rewrite (joinAttempt_paths uid B typed).
  unfold RoomListForms.joinCaught.
  change (RoomList.selectedRoom typed) with (Some room).
  destruct (JS.truthy (JS.trim (RoomList.joinPassword typed))); cbn [negb snd].
  2:{ intros [<-|[<-|[]]]; exact I. }
  destruct (RoomList.joinPassword typed =? RoomList.password_hash room)%string;
    cbn [negb snd].
  2:{ intros [<-|[<-|[]]]; exact I. }
  destruct (RoomList.room_users_maybeSingle B (RoomList.id room) uid) as [[row|] n|e];
    cbn [snd].
  - intros [<-|[<-|[<-|[]]]]; cbn; auto.
  - destruct (RoomList.room_users_count B (RoomList.id room)) as [d cnt|e]; cbn [snd].
    + destruct (match cnt with Some n0 => n0 >=? RoomList.max_users room | None => false end);
        cbn [snd].
      * intros [<-|[<-|[<-|[<-|[]]]]]; cbn; auto.
      * destruct (RoomList.room_users_insert B (RoomList.id room) uid) as [d' n'|e];
          cbn [snd].
        -- intros [<-|[<-|[<-|[<-|[<-|[<-|[]]]]]]]; cbn; auto.
        -- destruct (Supabase.instanceofError e); cbn;
             intros H; repeat (destruct H as [<-|H]); cbn; auto; contradiction.
    + destruct (Supabase.instanceofError e); cbn;
        intros H; repeat (destruct H as [<-|H]); cbn; auto; contradiction.
  - destruct (Supabase.instanceofError e); cbn;
      intros H; repeat (destruct H as [<-|H]); cbn; auto; contradiction.
Qed.

(* ===================================================================== *)
(** ** The members of a room *)
(* ===================================================================== *)

Section MemberFacts.
Import JS Supabase Handler Nullable RoomView RoomViewMembers.

(** All that a kick can do, by its inputs. *)
Lemma kickAttempt_paths (roomId : string) (B : Backend) (s : State) (userId : string) :
  kickAttempt roomId B s userId =
  if negb (isOwner s) then (s, [])
  else
    match room_users_delete B roomId userId with
    | Some _ => (s, [DeleteMembership roomId userId; ConsoleErrorKick; ToastKickFailed])
    | None =>
        (setRoomUsers (without userId (roomUsers s)) s,
         [DeleteMembership roomId userId; ToastKicked])
    end.
Proof.
  cbv [kickAttempt run handleKickUser RoomViewMembers.await
       when tryCatch bind emit set ret return_ throw].
  destruct (isOwner s); cbn [negb]; [|reflexivity].
  destruct (room_users_delete B roomId userId); reflexivity.
Qed.

Lemma without_In (userId : string) (users : list RoomUser) (m : RoomUser) :
  In m (without userId users) <-> In m users /\ user_id m <> userId.
Proof.
  unfold without. rewrite filter_In, negb_true_iff, String.eqb_neq. tauto.
Qed.

Lemma without_without (a b : string) (users : list RoomUser) :
  without a (without b users) = without b (without a users).
Proof.
  unfold without. induction users as [|u l IH]; simpl; [reflexivity|].
  destruct (user_id u =? a)%string eqn:Ha, (user_id u =? b)%string eqn:Hb;
    simpl; rewrite ?Ha, ?Hb; simpl; congruence.
Qed.

Lemma without_idempotent (a : string) (users : list RoomUser) :
  without a (without a users) = without a users.
Proof.
  unfold without. induction users as [|u l IH]; simpl; [reflexivity|].
  destruct (user_id u =? a)%string eqn:Ha; simpl; rewrite ?Ha; simpl; congruence.
Qed.

(** What the DELETE notification does to the state. *)
Lemma onMemberDeleted_state (old : option string) (s : State) :
  fst (run (onMemberDeleted old) s) =
  match old with
  | Some deletedUserId => setRoomUsers (without deletedUserId (roomUsers s)) s
  | None => s
  end.
Proof. destruct old; reflexivity. Qed.

(** A fetch of the details changes the member list and the owner flag
    only. *)
Lemma fetchRoomDetails_keeps_flags (uid roomId : string) (B : Backend) (s : State) :
  let s' := fst (run (fetchRoomDetails uid roomId B) s) in
  showChat s' = showChat s /\ showMembers s' = showMembers s /\
  showLeaderboard s' = showLeaderboard s.
Proof.
  cbv [run fetchRoomDetails RoomViewMembers.await when bind emit set ret return_].
  destruct (rooms_owner B roomId) as [owner|];
    (destruct (room_users_select B roomId) as [[[|row rows]|] n|e]; cbn;
     [ | destruct (get_user_emails B _) as [d n'|e]; cbn | | ]);
    repeat split.
Qed.

(** The sort of the member list puts the records of the owner in front and
    keeps the order on both sides. *)
Lemma insertSorted_compareMembers (roomData : option string) (x : RoomUser)
      (owners others : list RoomUser) :
  Forall (fun m => isOwnerId roomData (user_id m) = true) owners ->
  Forall (fun m => isOwnerId roomData (user_id m) = false) others ->
  insertSorted (compareMembers roomData) x (owners ++ others) =
  if isOwnerId roomData (user_id x) then x :: owners ++ others
  else owners ++ x :: others.
Proof.
  intros Ho Hn. unfold compareMembers.
  induction Ho as [|o owners Ho' _ IH]; simpl.
  - destruct Hn as [|n others Hn' _]; simpl.
    + destruct (isOwnerId roomData (user_id x)); reflexivity.
    + destruct (isOwnerId roomData (user_id x)); [reflexivity|].
      rewrite Hn'. reflexivity.
  - destruct (isOwnerId roomData (user_id x)) eqn:Hx; [reflexivity|].
    rewrite Ho'. simpl. now rewrite IH.
Qed.

Lemma sort_compareMembers (roomData : option string) (l : list RoomUser) :
  sort (compareMembers roomData) l =
  filter (fun m => isOwnerId roomData (user_id m)) l
  ++ filter (fun m => negb (isOwnerId roomData (user_id m))) l.
Proof.
  induction l as [|x l IH]; simpl; [reflexivity|].
  fold (sort (compareMembers roomData) l). rewrite IH.
  rewrite insertSorted_compareMembers.
  - destruct (isOwnerId roomData (user_id x)); reflexivity.
  - apply Forall_forall. intros m Hm. apply filter_In in Hm. tauto.
  - apply Forall_forall. intros m Hm. apply filter_In in Hm.
    now apply negb_true_iff.
Qed.
End MemberFacts.

(** X14.  [handleKickUser] does nothing at all for a user who is not the
    owner: no delete is requested and the state is untouched.  For the
    owner it requests one delete; when the delete fails the member list is
    left as it was and the failure notice is shown. *)
Theorem handleKickUser_guards :
  forall (roomId : string) (B : RoomViewMembers.Backend) (s : RoomView.State)
         (userId : string),
    let after := RoomViewMembers.kickAttempt roomId B s userId in
    (RoomView.isOwner s = false -> after = (s, [])) /\
    (RoomView.isOwner s = true ->
     existsb RoomViewMembers.isDelete (snd after) = true /\
     (RoomViewMembers.room_users_delete B roomId userId <> None ->
      fst after = s /\ In RoomViewMembers.ToastKickFailed (snd after))).
Proof.
  intros roomId B s userId after. subst after. rewrite kickAttempt_paths.
  destruct (RoomView.isOwner s); cbn [negb]; split; try discriminate; try reflexivity.
  intros _.
  destruct (RoomViewMembers.room_users_delete B roomId userId); cbn.
  - split; [reflexivity|]. intros _. split; [reflexivity | tauto].
  - split; [reflexivity|]. congruence.
Qed.

(** X15.  When the owner removes a user and the delete succeeds, the member
    list loses exactly the records of that user: every other member stays,
    in the same order, the view flags and the owner flag are untouched,
    and the success notice is shown. *)
Theorem handleKickUser_removes_exactly_that_user :
  forall (roomId : string) (B : RoomViewMembers.Backend) (s : RoomView.State)
         (userId : string),
    RoomView.isOwner s = true ->
    RoomViewMembers.room_users_delete B roomId userId = None ->
    let after := RoomViewMembers.kickAttempt roomId B s userId in
    snd after = [RoomViewMembers.DeleteMembership roomId userId; RoomViewMembers.ToastKicked] /\
    RoomView.roomUsers (fst after)
    = filter (fun m => negb (RoomView.user_id m =? userId)%string) (RoomView.roomUsers s) /\
    (forall m, In m (RoomView.roomUsers (fst after)) <->
               In m (RoomView.roomUsers s) /\ RoomView.user_id m <> userId) /\
    RoomView.showChat (fst after) = RoomView.showChat s /\
    RoomView.showMembers (fst after) = RoomView.showMembers s /\
    RoomView.showLeaderboard (fst after) = RoomView.showLeaderboard s /\
    RoomView.isOwner (fst after) = RoomView.isOwner s.
Proof.
  intros roomId B s userId Howner Hdel after. subst after.
  rewrite kickAttempt_paths, Howner, Hdel. cbn.
  repeat split; try assumption.
  - apply without_In in H. tauto.
  - apply without_In in H. tauto.
  - intros [H1 H2]. apply without_In. tauto.
Qed.

Lemma handleKickUser_removes_exactly_that_user_witness :
  RoomView.roomUsers
    (fst (RoomViewMembers.kickAttempt "r1" Cases.detailsBackend Cases.ownerView "bob"))
  = [Cases.alice].
Proof.
  destruct (handleKickUser_removes_exactly_that_user "r1" Cases.detailsBackend
              Cases.ownerView "bob" eq_refl eq_refl) as [_ [H _]].
  exact H.
Defined.

(** X16.  Removals from the member list do not depend on how often or in
    which order they arrive: after a successful kick the DELETE
    notification for the same user changes nothing, a repeated
    notification changes nothing, two notifications give the same list in
    either order, and a notification without a user id is ignored. *)
Theorem member_removals_are_idempotent_and_commute :
  forall (roomId : string) (B : RoomViewMembers.Backend) (s : RoomView.State)
         (a b : string),
    let deleted u st := fst (Handler.run (RoomViewMembers.onMemberDeleted (Some u)) st) in
    (RoomView.isOwner s = true ->
     RoomViewMembers.room_users_delete B roomId a = None ->
     deleted a (fst (RoomViewMembers.kickAttempt roomId B s a))
     = fst (RoomViewMembers.kickAttempt roomId B s a)) /\
    deleted a (deleted a s) = deleted a s /\
    deleted a (deleted b s) = deleted b (deleted a s) /\
    fst (Handler.run (RoomViewMembers.onMemberDeleted None) s) = s.
Proof.
  intros roomId B s a b deleted. subst deleted. cbv beta.
  rewrite !onMemberDeleted_state.
  assert (Hset : forall u v st,
             RoomViewMembers.setRoomUsers
               (RoomViewMembers.without u
                  (RoomView.roomUsers (RoomViewMembers.setRoomUsers v st)))
               (RoomViewMembers.setRoomUsers v st)
             = RoomViewMembers.setRoomUsers (RoomViewMembers.without u v) st)
    by reflexivity.
  repeat split.
  - intros Howner Hdel. rewrite kickAttempt_paths, Howner, Hdel. cbn [negb fst].
    now rewrite Hset, without_idempotent.
  - now rewrite Hset, without_idempotent.
  - now rewrite !Hset, without_without.
Qed.

(** X17.  Whatever happens to a mounted room view (clicks on the three
    buttons, the closing of the members panel, DELETE notifications,
    fetches of the room details, in any order), the chat and the
    leaderboard are never shown together, and exactly one of the
    leaderboard, the chat panel and the timer grid is shown. *)
Theorem roomView_one_main_view_whatever_happens :
  forall (session_user_id roomId : string) (hs : list RoomViewMembers.Happening),
    let s := RoomViewMembers.happenings session_user_id roomId hs RoomView.initial in
    RoomView.showChat s && RoomView.showLeaderboard s = false /\
    exists v : RoomView.View,
      v <> RoomView.MembersPanel /\ RoomView.shownBesidesMembers s = [v].
Proof.
  intros uid roomId hs s.
  assert (H : RoomView.showChat s && RoomView.showLeaderboard s = false).
  { subst s. unfold RoomViewMembers.happenings.
    assert (Hinit : RoomView.showChat RoomView.initial
                    && RoomView.showLeaderboard RoomView.initial = false) by reflexivity.
    revert Hinit. generalize RoomView.initial.
    induction hs as [|h hs IH]; intros s0 H0; simpl; [exact H0|].
    apply IH. destruct h as [b| |old|B]; simpl.
    - now apply onClick_not_chat_and_leaderboard.
    - exact H0.
    - rewrite onMemberDeleted_state. destruct old; exact H0.
    - destruct (fetchRoomDetails_keeps_flags uid roomId B s0) as [Hc [_ Hl]].
      now rewrite Hc, Hl. }
  split; [exact H|].
  unfold RoomView.shownBesidesMembers, RoomView.shown.
  destruct (RoomView.showChat s), (RoomView.showLeaderboard s),
           (RoomView.showMembers s); try discriminate H; cbn;
    eexists; (split; [|reflexivity]); discriminate.
Qed.

(** X18.  What a click changes in what is shown: the chat button shows the
    chat when it was hidden and the timer grid when it was shown, the
    leaderboard button does the same for the leaderboard, each closing the
    other; the members button and the closing of the members panel leave
    the rest as it is and decide the members panel alone. *)
Theorem roomView_buttons_switch_views :
  forall s : RoomView.State,
    RoomView.shownBesidesMembers (RoomView.onClick RoomView.ChatButton s)
    = (if RoomView.showChat s then [RoomView.TimerGrid] else [RoomView.ChatPanel]) /\
    RoomView.shownBesidesMembers (RoomView.onClick RoomView.LeaderboardButton s)
    = (if RoomView.showLeaderboard s then [RoomView.TimerGrid]
       else [RoomView.LeaderboardView]) /\
    RoomView.shownBesidesMembers (RoomView.onClick RoomView.MembersButton s)
    = RoomView.shownBesidesMembers s /\
    RoomView.shownBesidesMembers (RoomViewMembers.closeMembers s)
    = RoomView.shownBesidesMembers s /\
    (In RoomView.MembersPanel (RoomView.shown (RoomView.onClick RoomView.MembersButton s))
     <-> RoomView.showMembers s = false) /\
    ~ In RoomView.MembersPanel (RoomView.shown (RoomViewMembers.closeMembers s)).
Proof.
  intros s. unfold RoomView.shownBesidesMembers, RoomView.shown.
  destruct s as [c m l users o]; destruct c, m, l; cbn;
    repeat split; try reflexivity; try discriminate; try tauto;
    intros H; repeat (destruct H as [H|H]; try discriminate H); contradiction.
Qed.

Section DetailFacts.
Import JS Supabase Handler Nullable RoomView RoomViewMembers.

Lemma orNull_not_empty (v : option string) : orNull v <> Some "".
Proof.
  destruct v as [[|c s]|]; simpl; discriminate.
Qed.

Lemma orElse_not_empty (v : option string) (fallback : string) :
  fallback <> "" -> orElse v fallback <> "".
Proof.
  intros Hf. unfold orElse. destruct v as [[|c s]|]; simpl; try exact Hf. discriminate.
Qed.

Lemma find_none_when_absent {T} (pred : T -> bool) (l : list T) :
  (forall x, In x l -> pred x = false) -> find pred l = None.
Proof.
  induction l as [|x l IH]; intros H; simpl; [reflexivity|].
  rewrite (H x (or_introl eq_refl)). apply IH. intros y Hy. apply H. now right.
Qed.

(** The state after a fetch of the room details, by the answers. *)
Lemma fetchRoomDetails_state (uid roomId : string) (B : Backend) (s : State) :
  let roomData := rooms_owner B roomId in
  let noted :=
    match roomData with
    | Some owner_id => setIsOwner (owner_id =? uid)%string s
    | None => s
    end in
  fst (run (fetchRoomDetails uid roomId B) s) =
  match room_users_select B roomId with
  | Failure _ => noted
  | Success None _ | Success (Some []) _ => setRoomUsers [] noted
  | Success (Some roomUsersData) _ =>
      let ids := map row_user_id roomUsersData in
      match get_user_emails B ids with
      | Failure _ => noted
      | Success userData _ =>
          setRoomUsers
            (sort (compareMembers roomData)
                  (map (memberRecord userData (profiles_select B ids)
                                     (users_fullname_select B ids))
                       roomUsersData))
            noted
      end
  end.
Proof.
  cbv [run fetchRoomDetails RoomViewMembers.await when bind emit set ret return_].
  destruct (rooms_owner B roomId) as [owner|];
    (destruct (room_users_select B roomId) as [[[|row rows]|] n|e]; cbn;
     [ | destruct (get_user_emails B _) as [d n'|e]; cbn | | ]);
    reflexivity.
Qed.

(** The effects of a fetch of the room details, by the answers. *)
Lemma fetchRoomDetails_effects (uid roomId : string) (B : Backend) (s : State) :
  snd (run (fetchRoomDetails uid roomId B) s) =
  [SelectOwner roomId; SelectMembers roomId] ++
  match room_users_select B roomId with
  | Failure _ => [ConsoleErrorRoomUsers]
  | Success None _ | Success (Some []) _ => []
  | Success (Some roomUsersData) _ =>
      let ids := map row_user_id roomUsersData in
      GetUserEmails ids ::
      match get_user_emails B ids with
      | Failure _ => [ConsoleErrorUserData]
      | Success _ _ => [SelectProfiles ids; SelectFullNames ids]
      end
  end.
Proof.
  cbv [run fetchRoomDetails RoomViewMembers.await when bind emit set ret return_].
  destruct (rooms_owner B roomId) as [owner|];
    (destruct (room_users_select B roomId) as [[[|row rows]|] n|e]; cbn;
     [ | destruct (get_user_emails B _) as [d n'|e]; cbn | | ]);
    reflexivity.
Qed.

Lemma roomUsers_noted (uid : string) (roomData : option string) (s : State) :
  roomUsers match roomData with
            | Some owner_id => setIsOwner (owner_id =? uid)%string s
            | None => s
            end = roomUsers s.
Proof. destruct roomData; reflexivity. Qed.

(** Among records with distinct user ids, those of one user are one
    record. *)
Lemma filter_unique_user (owner : string) (l : list RoomUser) :
  NoDup (map user_id l) -> In owner (map user_id l) ->
  exists m, filter (fun u => (user_id u =? owner)%string) l = [m] /\ user_id m = owner.
Proof.
  induction l as [|u l IH]; intros Hnd Hin; [contradiction|].
  simpl in Hnd. inversion Hnd as [|? ? Hnot Hnd']; subst. simpl.
  destruct (String.eqb_spec (user_id u) owner) as [Heq|Hne].
  - exists u. split; [|exact Heq]. f_equal.
    assert (Hnone : forall x, In x l -> (user_id x =? owner)%string = false).
    { intros x Hx. apply String.eqb_neq. intros E. apply Hnot.
      rewrite Heq, <- E. now apply in_map. }
    clear -Hnone. induction l as [|x l IH]; simpl; [reflexivity|].
    rewrite (Hnone x (or_introl eq_refl)). apply IH. intros y Hy. apply Hnone. now right.
  - apply IH; [exact Hnd'|]. destruct Hin as [E|Hin]; [contradiction | exact Hin].
Qed.
End DetailFacts.

(** X19.  When the members and their emails are fetched without an error
    and there is at least one membership row, the member list gets exactly
    one record per membership row: the user ids of the list are those of
    the rows.  No record has an empty email, avatar, first name or last
    name (an empty value is stored as missing), and a member for whom the
    email lookup has no row is listed as [Unknown User]. *)
Theorem fetchRoomDetails_lists_every_member :
  forall (session_user_id roomId : string) (B : RoomViewMembers.Backend)
         (s : RoomView.State) (row : RoomViewMembers.MemberRow)
         (rows : list RoomViewMembers.MemberRow) (n n' : option Z)
         (userData : option (list RoomViewMembers.UserEmail)),
    RoomViewMembers.room_users_select B roomId = Supabase.Success (Some (row :: rows)) n ->
    RoomViewMembers.get_user_emails B (map RoomViewMembers.row_user_id (row :: rows))
    = Supabase.Success userData n' ->
    let users :=
      RoomView.roomUsers
        (fst (Handler.run (RoomViewMembers.fetchRoomDetails session_user_id roomId B) s)) in
    Permutation (map RoomViewMembers.row_user_id (row :: rows)) (map RoomView.user_id users) /\
    (forall m, In m users ->
       RoomView.user_email m <> "" /\ RoomView.avatar_url m <> Some "" /\
       RoomView.first_name m <> Some "" /\ RoomView.last_name m <> Some "") /\
    (forall m, In m users ->
       (forall found, userData = Some found ->
          forall e, In e found -> RoomViewMembers.ue_id e <> RoomView.user_id m) ->
       RoomView.user_email m = "Unknown User").
Proof.
  intros uid roomId B s row rows n n' userData Hrows Hemails users. subst users.
  rewrite fetchRoomDetails_state, Hrows. cbv zeta. rewrite Hemails.
  set (ids := map RoomViewMembers.row_user_id (row :: rows)).
  set (record := RoomViewMembers.memberRecord userData _ _).
  set (sorted := JS.sort _ _).
  assert (Hperm : Permutation (map record (row :: rows)) sorted)
    by apply sort_Permutation.
  assert (Hin : forall m, In m sorted -> exists r, m = record r).
  { intros m Hm. apply (Permutation_in _ (Permutation_sym Hperm)) in Hm.
    apply in_map_iff in Hm. destruct Hm as [r [<- _]]. now exists r. }
  change (RoomView.roomUsers (RoomViewMembers.setRoomUsers sorted _)) with sorted.
  repeat split.
  - rewrite <- Hperm. rewrite map_map. reflexivity.
  - destruct (Hin m H) as [r ->]. apply orElse_not_empty. discriminate.
  - destruct (Hin m H) as [r ->]. apply orNull_not_empty.
  - destruct (Hin m H) as [r ->]. apply orNull_not_empty.
  - destruct (Hin m H) as [r ->]. apply orNull_not_empty.
  - intros m Hm Habsent. destruct (Hin m Hm) as [r ->].
    unfold record, RoomViewMembers.memberRecord. cbn [RoomView.user_email].
    destruct userData as [found|]; [|reflexivity].
    cbn [RoomViewMembers.findIn].
    rewrite find_none_when_absent; [reflexivity|].
    intros e He. apply String.eqb_neq. exact (Habsent found eq_refl e He).
Qed.

Lemma fetchRoomDetails_lists_every_member_witness :
  Permutation ["bob"; "alice"]
    (map RoomView.user_id
       (RoomView.roomUsers
          (fst (Handler.run (RoomViewMembers.fetchRoomDetails "alice" "r1" Cases.detailsBackend)
                  RoomView.initial)))).
Proof.
  destruct (fetchRoomDetails_lists_every_member "alice" "r1" Cases.detailsBackend
              RoomView.initial (RoomViewMembers.mkMemberRow "bob")
              [RoomViewMembers.mkMemberRow "alice"] None None
              (Some [RoomViewMembers.mkUserEmail "alice" (Some "alice@example.com")])
              eq_refl eq_refl) as [H _].
  exact H.
Defined.

(** X20.  A fetch of the room details that cannot list the members tells
    the user nothing: when the membership query fails or the email lookup
    fails, the member list stays as it was and only the console gets a
    message; when the membership query answers no rows, the member list
    becomes empty and no further request is made.  In each case the owner
    flag has been set from the owner of the room when the room was found,
    and is left as it was when the room was not found. *)
Theorem fetchRoomDetails_without_members :
  forall (session_user_id roomId : string) (B : RoomViewMembers.Backend)
         (s : RoomView.State),
    let after := Handler.run (RoomViewMembers.fetchRoomDetails session_user_id roomId B) s in
    let asked := [RoomViewMembers.SelectOwner roomId; RoomViewMembers.SelectMembers roomId] in
    RoomView.isOwner (fst after)
    = match RoomViewMembers.rooms_owner B roomId with
      | Some owner_id => (owner_id =? session_user_id)%string
      | None => RoomView.isOwner s
      end /\
    match RoomViewMembers.room_users_select B roomId with
    | Supabase.Failure _ =>
        RoomView.roomUsers (fst after) = RoomView.roomUsers s /\
        snd after = asked ++ [RoomViewMembers.ConsoleErrorRoomUsers]
    | Supabase.Success None _ | Supabase.Success (Some []) _ =>
        RoomView.roomUsers (fst after) = [] /\ snd after = asked
    | Supabase.Success (Some rows) _ =>
        let ids := map RoomViewMembers.row_user_id rows in
        forall e, RoomViewMembers.get_user_emails B ids = Supabase.Failure e ->
          RoomView.roomUsers (fst after) = RoomView.roomUsers s /\
          snd after = asked ++ [RoomViewMembers.GetUserEmails ids;
                                RoomViewMembers.ConsoleErrorUserData]
    end.
Proof.
  intros uid roomId B s after asked. subst after asked.
  rewrite fetchRoomDetails_state, fetchRoomDetails_effects. cbv zeta.
  split.
  - destruct (RoomViewMembers.rooms_owner B roomId) as [owner|];
      (destruct (RoomViewMembers.room_users_select B roomId) as [[[|row rows]|] n|e];
       [ | destruct (RoomViewMembers.get_user_emails B _) as [d n'|e] | | ]);
      reflexivity.
  - destruct (RoomViewMembers.room_users_select B roomId) as [[[|row rows]|] n|e].
    + split; reflexivity.
    + intros e ->. split; [apply roomUsers_noted | reflexivity].
    + split; reflexivity.
    + split; [apply roomUsers_noted | reflexivity].
Qed.

(** X21.  When the members and their emails are fetched without an error,
    the membership rows have distinct user ids (so that the comparator
    orders any two different records consistently) and the owner of the
    room is one of them, the member list starts with the record of the
    owner and holds no other record of the owner. *)
Theorem fetchRoomDetails_owner_first :
  forall (session_user_id roomId : string) (B : RoomViewMembers.Backend)
         (s : RoomView.State) (owner_id : string)
         (rows : list RoomViewMembers.MemberRow) (n n' : option Z)
         (userData : option (list RoomViewMembers.UserEmail)),
    RoomViewMembers.rooms_owner B roomId = Some owner_id ->
    RoomViewMembers.room_users_select B roomId = Supabase.Success (Some rows) n ->
    RoomViewMembers.get_user_emails B (map RoomViewMembers.row_user_id rows)
    = Supabase.Success userData n' ->
    NoDup (map RoomViewMembers.row_user_id rows) ->
    In owner_id (map RoomViewMembers.row_user_id rows) ->
    exists first rest,
      RoomView.roomUsers
        (fst (Handler.run (RoomViewMembers.fetchRoomDetails session_user_id roomId B) s))
      = first :: rest /\
      RoomView.user_id first = owner_id /\
      Forall (fun m => RoomView.user_id m <> owner_id) rest.
Proof.
  intros uid roomId B s owner rows n n' userData Howner Hrows Hemails Hnd Hin.
  rewrite fetchRoomDetails_state, Hrows, Howner. cbv zeta.
  destruct rows as [|row rows]; [contradiction|].
  rewrite Hemails.
  set (record := RoomViewMembers.memberRecord userData _ _).
  change (RoomView.roomUsers (RoomViewMembers.setRoomUsers ?l _)) with l.
  rewrite sort_compareMembers.
  assert (Hids : map RoomView.user_id (map record (row :: rows))
                 = map RoomViewMembers.row_user_id (row :: rows))
    by (rewrite map_map; reflexivity).
  destruct (filter_unique_user owner (map record (row :: rows))) as [m [Hm Hid]];
    [now rewrite Hids | now rewrite Hids |].
  cbn [RoomViewMembers.isOwnerId]. rewrite Hm.
  exists m, (filter (fun u => negb (RoomView.user_id u =? owner)%string)
                    (map record (row :: rows))).
  split; [reflexivity|]. split; [exact Hid|].
  apply Forall_forall. intros u Hu. apply filter_In in Hu.
  destruct Hu as [_ Hu]. apply negb_true_iff in Hu. now apply String.eqb_neq.
Qed.

Lemma fetchRoomDetails_owner_first_witness :
  exists first rest,
    RoomView.roomUsers
      (fst (Handler.run (RoomViewMembers.fetchRoomDetails "alice" "r1" Cases.detailsBackend)
              RoomView.initial))
    = first :: rest /\
    RoomView.user_id first = "alice" /\
    Forall (fun m => RoomView.user_id m <> "alice") rest.
Proof.
  apply (fetchRoomDetails_owner_first "alice" "r1" Cases.detailsBackend RoomView.initial
           "alice" [RoomViewMembers.mkMemberRow "bob"; RoomViewMembers.mkMemberRow "alice"]
           None None
           (Some [RoomViewMembers.mkUserEmail "alice" (Some "alice@example.com")]));
    try reflexivity.
  - repeat constructor; simpl; intros H;
      repeat (destruct H as [H|H]; try discriminate H); exact H.
  - simpl. auto.
Defined.

(* ===================================================================== *)
(** ** The chat: uploads, sends and the feed *)
(* ===================================================================== *)

Section ChatPaths.
Import JS Supabase Handler Nullable Chat ChatFeed.

(** The state after an upload attempt. *)
Lemma uploadAttempt_state (user : User) (roomId : string) (B : Chat.Backend)
      (file : File) (s : State) :
  fst (uploadAttempt user roomId B file s) =
  if negb (startsWith (file_type file) "image/") then s else setIsUploading false s.
Proof.
  cbv [uploadAttempt run handleImageUpload Chat.await Chat.throwIf
       when tryCatch tryFinally bind emit set ret return_ throw].
  destruct (startsWith (file_type file) "image/"); cbn [negb]; [|reflexivity].
  destruct (storage_upload B _ file) as [e|].
  - destruct (instanceofError e); reflexivity.
  - destruct (error (messages_insert B _)) as [e|].
    + destruct (instanceofError e); reflexivity.
    + destruct (fileInputRef_current B); reflexivity.
Qed.

(** All that a send attempt can do, by its inputs. *)
Lemma sendAttempt_paths (user : User) (roomId : string) (B : Chat.Backend) (s : State) :
  let row := mkNewMessage (newMessage s) (session_user_id user)
               (session_user_email user) None text roomId in
  sendAttempt user roomId B s =
  if negb (truthy (trim (newMessage s))) then (s, [Chat.PreventDefault])
  else
    match error (messages_insert B row) with
    | None => (setNewMessage "" s, [Chat.PreventDefault; InsertMessage row])
    | Some e =>
        (s, [Chat.PreventDefault; InsertMessage row]
            ++ (if instanceofError e then [Chat.ToastError (message e)] else []))
    end.
Proof.
  cbv [sendAttempt run handleSend Chat.await Chat.throwIf
       when tryCatch bind emit set ret return_ throw].
  destruct (truthy (trim (newMessage s))); cbn [negb]; [|reflexivity].
  destruct (error (messages_insert B _)) as [e|]; [|reflexivity].
  destruct (instanceofError e); reflexivity.
Qed.

Lemma existsb_eqb_In (v : string) (seen : list string) :
  existsb (String.eqb v) seen = true <-> In v seen.
Proof.
  rewrite existsb_exists. split.
  - intros [x [Hx E]]. apply String.eqb_eq in E. now subst.
  - intros H. exists v. split; [exact H | apply String.eqb_refl].
Qed.

(** [unique] keeps one occurrence of each value. *)
Lemma unique_spec (values : list string) :
  NoDup (unique values) /\ forall v, In v (unique values) <-> In v values.
Proof.
  unfold unique.
  assert (H : forall seen,
             NoDup seen ->
             let result :=
               fold_left (fun seen v => if existsb (String.eqb v) seen then seen
                                        else seen ++ [v]) values seen in
             NoDup result /\ forall v, In v result <-> In v seen \/ In v values).
  { induction values as [|x l IH]; intros seen Hnd; simpl.
    - split; [exact Hnd | intros v; tauto].
    - destruct (existsb (String.eqb x) seen) eqn:Hx.
      + destruct (IH seen Hnd) as [H1 H2]. split; [exact H1|].
        intros v. rewrite H2. apply existsb_eqb_In in Hx.
        split; [tauto|]. intros [H|[<-|H]]; tauto.
      + assert (Hnot : ~ In x seen).
        { intros Hin. apply existsb_eqb_In in Hin. congruence. }
        assert (Hnd' : NoDup (seen ++ [x])).
        { apply NoDup_app; [exact Hnd | repeat constructor; intros [] |].
          intros y Hy [<-|[]]. contradiction. }
        destruct (IH (seen ++ [x]) Hnd') as [H1 H2]. split; [exact H1|].
        intros v. rewrite H2, in_app_iff. simpl. tauto. }
  destruct (H [] (NoDup_nil _)) as [H1 H2]. split; [exact H1|].
  intros v. rewrite H2. simpl. tauto.
Qed.

(** All that the fetch of the messages can do, by the answers. *)
Lemma fetchMessages_paths (roomId : string) (B : ChatFeed.Backend) (s : State) :
  run (fetchMessages roomId B) s =
  match messages_select B roomId with
  | Failure _ => (s, [SelectMessages roomId; ChatFeed.ToastError "Failed to fetch messages"])
  | Success None _ | Success (Some []) _ => (setMessages [] s, [SelectMessages roomId])
  | Success (Some messagesData) _ =>
      let uniqueUserIds := unique (map user_id messagesData) in
      let profiles := profiles_select B uniqueUserIds in
      (setMessages
         (map (fun message =>
                 withAvatar message (avatarOf (data profiles) (user_id message)))
              messagesData) s,
       [SelectMessages roomId; SelectProfiles uniqueUserIds]
       ++ match error profiles with Some _ => [ConsoleErrorProfiles] | None => [] end)
  end.
Proof.
  cbv [run fetchMessages ChatFeed.await when tryCatch bind emit set ret return_].
  destruct (messages_select B roomId) as [[[|m l]|] n|e]; cbn; try reflexivity.
  destruct (profiles_select B _) as [d n'|e]; reflexivity.
Qed.

(** What one notification does to the state. *)
Lemma onMessageChange_state (B : ChatFeed.Backend) (p : Payload) (s : State) :
  fst (run (onMessageChange B p) s) =
  match eventType p with
  | INSERT => setMessages (messages s ++ [decorated B (new p)]) s
  | _ => s
  end.
Proof. destruct p as [[] m]; reflexivity. Qed.
End ChatPaths.

(** X22.  A file whose media type does not start with [image/] is refused
    before anything is sent: the only effect is the notice, no upload and
    no message insert are requested, and the state, the uploading flag
    included, is untouched. *)
Theorem handleImageUpload_refuses_other_files :
  forall (user : Chat.User) (roomId : string) (B : Chat.Backend) (file : Chat.File)
         (s : Chat.State),
    JS.startsWith (Chat.file_type file) "image/" = false ->
    Chat.uploadAttempt user roomId B file s
    = (s, [Chat.ToastError "Please upload an image file"]).
Proof.
  intros user roomId B file s Htype.
  rewrite (surjective_pairing (Chat.uploadAttempt user roomId B file s)).
  rewrite uploadAttempt_state, uploadAttempt_effects, Htype. reflexivity.
Qed.

Lemma handleImageUpload_refuses_other_files_witness :
  Chat.uploadAttempt Scenario.u1 "r1" Scenario.failingStore Cases.notes (Scenario.typing "")
  = (Scenario.typing "", [Chat.ToastError "Please upload an image file"]).
Proof.
  apply (handleImageUpload_refuses_other_files Scenario.u1 "r1" Scenario.failingStore
           Cases.notes (Scenario.typing "")).
  reflexivity.
Defined.

(** X23.  After every upload attempt with an image file, whether the
    upload and the insert succeed or fail, the uploading flag is false
    again, and the message list and the message box are as they were. *)
Theorem handleImageUpload_always_resets_uploading :
  forall (user : Chat.User) (roomId : string) (B : Chat.Backend) (file : Chat.File)
         (s : Chat.State),
    JS.startsWith (Chat.file_type file) "image/" = true ->
    let s' := fst (Chat.uploadAttempt user roomId B file s) in
    Chat.isUploading s' = false /\
    Chat.messages s' = Chat.messages s /\
    Chat.newMessage s' = Chat.newMessage s /\
    In (Chat.StorageUpload (Chat.uploadPath user B file) file)
       (snd (Chat.uploadAttempt user roomId B file s)).
Proof.
  intros user roomId B file s Htype s'. subst s'.
  rewrite uploadAttempt_state, uploadAttempt_effects, Htype. cbn.
  repeat split. now left.
Qed.

Lemma handleImageUpload_always_resets_uploading_witness :
  Chat.isUploading
    (fst (Chat.uploadAttempt Scenario.u1 "r1" Scenario.failingStore Scenario.photo
            (Scenario.typing "")))
  = false.
Proof.
  destruct (handleImageUpload_always_resets_uploading Scenario.u1 "r1"
              Scenario.failingStore Scenario.photo (Scenario.typing "") eq_refl)
    as [H _].
  exact H.
Defined.

(** X24.  When the upload succeeds and the message insert fails, the
    uploaded object stays in the store without a message: after the failed
    insert nothing more is requested, the file input is not cleared, and
    the message of the error is shown if it is an instance of [Error]. *)
Theorem handleImageUpload_failed_insert_leaves_object :
  forall (user : Chat.User) (roomId : string) (B : Chat.Backend) (file : Chat.File)
         (s : Chat.State) (e : Supabase.JsError),
    JS.startsWith (Chat.file_type file) "image/" = true ->
    let filePath := Chat.uploadPath user B file in
    let row := Chat.mkNewMessage "Sent an image" (Chat.session_user_id user)
                 (Chat.session_user_email user)
                 (Some (Chat.storage_getPublicUrl B filePath)) Chat.image roomId in
    Chat.storage_upload B filePath file = None ->
    Supabase.error (Chat.messages_insert B row) = Some e ->
    snd (Chat.uploadAttempt user roomId B file s) =
    [Chat.StorageUpload filePath file; Chat.GetPublicUrl filePath; Chat.InsertMessage row]
    ++ (if Supabase.instanceofError e then [Chat.ToastError (Supabase.message e)] else []).
Proof.
  intros user roomId B file s e Htype filePath row Hup Hins.
  rewrite uploadAttempt_effects, Htype. cbv zeta. fold filePath. rewrite Hup.
  fold row. rewrite Hins. reflexivity.
Qed.

Lemma handleImageUpload_failed_insert_leaves_object_witness :
  snd (Chat.uploadAttempt Scenario.u1 "r1" Cases.refusingMessages Scenario.photo
         (Scenario.typing ""))
  = [Chat.StorageUpload "u1/0.42.png" Scenario.photo;
     Chat.GetPublicUrl "u1/0.42.png";
     Chat.InsertMessage
       (Chat.mkNewMessage "Sent an image" "u1" (Some "u1@example.com")
          (Some "https://cdn.example/u1/0.42.png") Chat.image "r1");
     Chat.ToastError "row violates policy"].
Proof.
  apply (handleImageUpload_failed_insert_leaves_object Scenario.u1 "r1"
           Cases.refusingMessages Scenario.photo (Scenario.typing "")
           (Supabase.mkError "row violates policy" true));
    reflexivity.
Defined.

(** X25.  A text that is not blank is sent exactly as typed, white space
    around it included: [handleSend] requests one insert of a text message
    with that content for the user and the room.  The message box is
    emptied only when the insert succeeds; when it fails the text stays in
    the box.  The message list is never changed by the handler. *)
Theorem handleSend_sends_text_as_typed :
  forall (user : Chat.User) (roomId : string) (B : Chat.Backend) (s : Chat.State),
    JS.allWhiteSpace (Chat.newMessage s) = false ->
    let row := Chat.mkNewMessage (Chat.newMessage s) (Chat.session_user_id user)
                 (Chat.session_user_email user) None Chat.text roomId in
    let after := Chat.sendAttempt user roomId B s in
    (exists rest,
        snd after = [Chat.PreventDefault; Chat.InsertMessage row] ++ rest /\
        Chat.insertsMessage rest = false) /\
    (Supabase.error (Chat.messages_insert B row) = None ->
     Chat.newMessage (fst after) = "") /\
    (Supabase.error (Chat.messages_insert B row) <> None -> fst after = s) /\
    Chat.messages (fst after) = Chat.messages s.
Proof.
  intros user roomId B s Hws row after. subst after.
  rewrite sendAttempt_paths. cbv zeta. fold row.
  rewrite truthy_trim, Hws. cbn [negb].
  destruct (Supabase.error (Chat.messages_insert B row)) as [e|]; cbn [fst snd].
  - repeat split; try congruence.
    eexists. split; [reflexivity|]. destruct (Supabase.instanceofError e); reflexivity.
  - repeat split; try congruence. exists []. split; reflexivity.
Qed.

Lemma handleSend_sends_text_as_typed_witness :
  exists rest,
    snd (Chat.sendAttempt Scenario.u1 "r1" Cases.refusingMessages (Scenario.typing " hi "))
    = [Chat.PreventDefault;
       Chat.InsertMessage
         (Chat.mkNewMessage " hi " "u1" (Some "u1@example.com") None Chat.text "r1")]
      ++ rest /\
    Chat.insertsMessage rest = false.
Proof.
  destruct (handleSend_sends_text_as_typed Scenario.u1 "r1" Cases.refusingMessages
              (Scenario.typing " hi ") eq_refl) as [H _].
  exact H.
Defined.

(** X26.  The feed shows the inserted rows in the order in which their
    notifications are handled: after any sequence of notifications, each
    handled to its end before the next, the message list is the former
    list followed by the rows of the INSERT notifications, each with the
    avatar of its sender's profile (none when the profile or its avatar is
    missing or empty), with no row left out or merged even when it is
    already listed; UPDATE and DELETE notifications change nothing, and
    the other cells of the state are untouched. *)
Theorem feed_appends_inserts_in_arrival_order :
  forall (B : ChatFeed.Backend) (payloads : list ChatFeed.Payload) (s : Chat.State),
    let s' := ChatFeed.deliver B payloads s in
    Chat.messages s'
    = Chat.messages s ++ map (ChatFeed.decorated B) (ChatFeed.insertedRows payloads) /\
    Chat.newMessage s' = Chat.newMessage s /\
    Chat.isUploading s' = Chat.isUploading s /\
    Forall (fun m => Chat.avatar_url m <> Some "")
           (map (ChatFeed.decorated B) (ChatFeed.insertedRows payloads)).
Proof.
  intros B payloads s s'. subst s'. unfold ChatFeed.deliver.
  split; [|split; [|split]].
  - revert s. induction payloads as [|p ps IH]; intros s; simpl.
    + now rewrite app_nil_r.
    + rewrite IH, onMessageChange_state. unfold ChatFeed.insertedRows.
      destruct p as [[] m]; simpl; [|reflexivity|reflexivity].
      now rewrite <- app_assoc.
  - revert s. induction payloads as [|p ps IH]; intros s; simpl; [reflexivity|].
    rewrite IH, onMessageChange_state. destruct p as [[] m]; reflexivity.
  - revert s. induction payloads as [|p ps IH]; intros s; simpl; [reflexivity|].
    rewrite IH, onMessageChange_state. destruct p as [[] m]; reflexivity.
  - apply Forall_forall. intros m Hm. apply in_map_iff in Hm.
    destruct Hm as [r [<- _]]. apply orNull_not_empty.
Qed.

(** X27.  The fetch of the messages replaces the message list by the rows
    received, in the order received and unchanged but for the avatar:
    there are as many messages as rows and they agree with the rows once
    the avatars are set aside; an answer without rows empties the list.
    When the fetch fails the list is left as it was and the failure notice
    is shown; when only the profiles cannot be fetched the messages are
    shown all the same, without avatars. *)
Theorem fetchMessages_keeps_rows_in_order :
  forall (roomId : string) (B : ChatFeed.Backend) (s : Chat.State),
    let after := Handler.run (ChatFeed.fetchMessages roomId B) s in
    let bare := map (fun m => ChatFeed.withAvatar m None) in
    match ChatFeed.messages_select B roomId with
    | Supabase.Failure _ =>
        after = (s, [ChatFeed.SelectMessages roomId;
                     ChatFeed.ToastError "Failed to fetch messages"])
    | Supabase.Success received _ =>
        let rows := match received with Some rows => rows | None => [] end in
        List.length (Chat.messages (fst after)) = List.length rows /\
        bare (Chat.messages (fst after)) = bare rows /\
        (Supabase.data (ChatFeed.profiles_select B
                          (Nullable.unique (map Chat.user_id rows))) = None ->
         Chat.messages (fst after) = bare rows) /\
        Chat.newMessage (fst after) = Chat.newMessage s
    end.
Proof.
  intros roomId B s after bare. subst after bare.
  rewrite fetchMessages_paths.
  destruct (ChatFeed.messages_select B roomId) as [[[|m l]|] n|e]; cbv zeta;
    try reflexivity; try (repeat split; reflexivity).
  cbn [fst snd]. set (rows := m :: l).
  change (Chat.messages (ChatFeed.setMessages ?x s)) with x.
  repeat split.
  - now rewrite length_map.
  - rewrite map_map. reflexivity.
  - intros Hnone. rewrite Hnone. reflexivity.
Qed.

(** X28.  The profiles the fetch of the messages asks for are those of the
    senders, each sender once: the ids of the request have no duplicates
    and are exactly the user ids of the rows received. *)
Theorem fetchMessages_asks_each_sender_once :
  forall (roomId : string) (B : ChatFeed.Backend) (s : Chat.State)
         (ids : list string),
    In (ChatFeed.SelectProfiles ids) (snd (Handler.run (ChatFeed.fetchMessages roomId B) s)) ->
    NoDup ids /\
    exists rows n,
      ChatFeed.messages_select B roomId = Supabase.Success (Some rows) n /\
      forall u, In u ids <-> In u (map Chat.user_id rows).
Proof.
  intros roomId B s ids. rewrite fetchMessages_paths.
  destruct (ChatFeed.messages_select B roomId) as [[[|m l]|] n|e]; cbv zeta; cbn [snd].
  - intros [H|[]]; discriminate H.
  - intros H.
    assert (Hids : ids = Nullable.unique (map Chat.user_id (m :: l))).
    { destruct (Supabase.error _); cbn in H;
        repeat (destruct H as [H|H]; try discriminate H); try contradiction;
        now injection H. }
    subst ids. destruct (unique_spec (map Chat.user_id (m :: l))) as [H1 H2].
    split; [exact H1|]. exists (m :: l), n. split; [reflexivity | exact H2].
  - intros [H|[]]; discriminate H.
  - intros [H|[H|[]]]; discriminate H.
Qed.

Lemma fetchMessages_asks_each_sender_once_witness :
  NoDup ["u1"; "u2"] /\
  exists rows n,
    ChatFeed.messages_select Cases.feedBackend "r1" = Supabase.Success (Some rows) n /\
    forall u, In u ["u1"; "u2"] <-> In u (map Chat.user_id rows).
Proof.
  apply (fetchMessages_asks_each_sender_once "r1" Cases.feedBackend (Scenario.typing "")).
  vm_compute. auto.
Defined.

(** X29.  A drop uploads the first of the dropped files only: the effects
    and the state are those of an upload attempt with that file, made
    after the dragging flag has been cleared, whatever other files were
    dropped with it; a drop without files clears the flag and does
    nothing else. *)
Theorem handleDrop_takes_first_file_only :
  forall (user : Chat.User) (roomId : string) (B : Chat.Backend) (s : Chat.State)
         (file : Chat.File) (others : list Chat.File),
    let dropped := Handler.run (ChatFeed.handleDrop user roomId B (file :: others)) s in
    let upload := Chat.uploadAttempt user roomId B file (ChatFeed.setIsDragging false s) in
    dropped = (fst upload, Chat.PreventDefault :: snd upload) /\
    Chat.isDragging (fst dropped) = false /\
    Handler.run (ChatFeed.handleDrop user roomId B []) s
    = (ChatFeed.setIsDragging false s, [Chat.PreventDefault]).
Proof.
  intros user roomId B s file others dropped upload.
  assert (Hd : dropped = (fst upload, Chat.PreventDefault :: snd upload)).
  { subst dropped upload.
    cbv [Handler.run ChatFeed.handleDrop ChatFeed.call Chat.uploadAttempt
         Handler.bind Handler.emit Handler.set Handler.ret].
    destruct (Chat.handleImageUpload user roomId B file (ChatFeed.setIsDragging false s))
      as [[[a| |e] s'] t]; reflexivity. }
  split; [exact Hd|]. split; [|reflexivity].
  rewrite Hd. cbn [fst]. subst upload. rewrite uploadAttempt_state.
  destruct (negb _); reflexivity.
Qed.
